(** * dbx: remote task execution controller and package locator

    A shallow embedding of [src/dbx/api/execute.py] (class
    [ExecutionController]) and [src/dbx/api/dependency/package_manager.py]
    (class [PackageManager]).

    The Python methods talk to collaborators that live outside these two
    files: the remote execution client, the file uploader, the parameter
    [Adjuster], mlflow, the local file system and the interpreter's
    built-in [int].  They are modelled by a [World]: one response function
    per collaborator operation, each of which sees every event that
    happened before the call and either returns a value or raises.  A
    method is a computation that reads the world, appends the events it
    causes and ends with a value or an exception.

    Left out as display only: the console spinner ([Console().status])
    around the install and dispatch calls, and the [verbose=False] that
    every [execute_command] call passes. *)

From Stdlib Require Import String Ascii List ZArith Bool Lia Permutation Sorted.
Import ListNotations.
Local Open Scope string_scope.
Local Open Scope list_scope.

Set Implicit Arguments.

(** String concatenation, kept apart from list concatenation. *)
Infix "+++" := String.append (right associativity, at level 60).

(** ** Python strings

    A string is kept as the bytes of its UTF-8 form.  The operations below
    that compare, split and replace on ASCII text act on these bytes as
    Python acts on the characters, since no byte of a longer UTF-8
    sequence is an ASCII byte. *)

Module PyStr.

(** The double quote and the line feed, which a string literal cannot
    hold here. *)
Definition dquote : string := String (ascii_of_nat 34) EmptyString.
Definition nl : string := String (ascii_of_nat 10) EmptyString.

(** [s.startswith(p)] *)
Fixpoint startswith (p s : string) : bool :=
  match p, s with
  | EmptyString, _ => true
  | String a p', String b s' => if Ascii.eqb a b then startswith p' s' else false
  | String _ _, EmptyString => false
  end.

(** [s.replace(old, new)] for a non-empty [old]: every occurrence, scanned
    from the left, occurrences never overlapping.  [skip] counts the
    characters of a match that are still to be dropped. *)
Fixpoint replace_from (old new s : string) (skip : nat) : string :=
  match s with
  | EmptyString => EmptyString
  | String c s' =>
      match skip with
      | S k => replace_from old new s' k
      | O =>
          if startswith old s
          then new +++ replace_from old new s' (String.length old - 1)
          else String c (replace_from old new s' 0)
      end
  end.

Definition replace (old new s : string) : string := replace_from old new s 0.

(** [s.split(sep)] for a one-character separator: the pieces between the
    separators, never an empty list. *)
Fixpoint split (sep : ascii) (s : string) : list string :=
  match s with
  | EmptyString => [EmptyString]
  | String c s' =>
      if Ascii.eqb c sep then EmptyString :: split sep s'
      else match split sep s' with
           | piece :: rest => String c piece :: rest
           | [] => [String c EmptyString]
           end
  end.

(** The blanks that [int] strips from both ends of ASCII text: tab, line
    feed, vertical tab, form feed, carriage return and space. *)
Definition isspace (c : ascii) : bool :=
  let n := nat_of_ascii c in
  ((9 <=? n)%nat && (n <=? 13)%nat) || (n =? 32)%nat.

Fixpoint lstrip (s : string) : string :=
  match s with
  | String c s' => if isspace c then lstrip s' else s
  | EmptyString => EmptyString
  end.

Fixpoint rev_string (s acc : string) : string :=
  match s with
  | EmptyString => acc
  | String c s' => rev_string s' (String c acc)
  end.

Definition strip (s : string) : string :=
  rev_string (lstrip (rev_string (lstrip s) EmptyString)) EmptyString.

Definition digit (c : ascii) : option Z :=
  let n := nat_of_ascii c in
  if (48 <=? n)%nat && (n <=? 57)%nat then Some (Z.of_nat (n - 48)) else None.

(** The digits of a decimal literal: one or more digits, a single
    underscore allowed between two digits.  [acc] is the value read so
    far, [after_digit] says whether the previous character was a digit. *)
Fixpoint digits (s : string) (acc : Z) (after_digit : bool) : option Z :=
  match s with
  | EmptyString => if after_digit then Some acc else None
  | String c s' =>
      match digit c with
      | Some d => digits s' (10 * acc + d)%Z true
      | None =>
          if Ascii.eqb c "_"%char && after_digit
          then match s' with
               | String c' _ =>
                   match digit c' with
                   | Some _ => digits s' acc false
                   | None => None
                   end
               | EmptyString => None
               end
          else None
      end
  end.

(** How many decimal digits a text holds. *)
Fixpoint digit_count (s : string) : nat :=
  match s with
  | EmptyString => 0
  | String c s' =>
      match digit c with
      | Some _ => S (digit_count s')
      | None => digit_count s'
      end
  end.

(** The most digits [int] converts, as the interpreter starts with
    ([sys.int_info.default_max_str_digits]). *)
Definition max_str_digits : nat := 4300.

(** [int(s)] for a [str] of ASCII characters, in an interpreter with the
    default digit limit: [Some v] when Python returns [v], [None] when it
    raises [ValueError].  What [int] does with other characters (decimal
    digits and blanks outside ASCII) is not described here; the sample
    worlds, which convert with this function, are run on ASCII text
    only. *)
Definition int_ascii (s : string) : option Z :=
  if (max_str_digits <? digit_count s)%nat then None
  else
    match strip s with
    | String "-"%char r => option_map Z.opp (digits r 0%Z false)
    | String "+"%char r => digits r 0%Z false
    | r => digits r 0%Z false
    end.

End PyStr.

(** ** Data model *)

(** [pathlib.Path], kept as the string it prints as. *)
Definition Path := string.

(** [Path(s)] for an optional string that the caller has found truthy. *)
Definition Path_of (s : option string) : Path :=
  match s with Some p => p | None => EmptyString end.

(** [Path(p) / name], for a [p] written without a trailing separator. *)
Definition Path_div (p : Path) (name : string) : Path :=
  match p with
  | EmptyString => name
  | _ => p +++ "/" +++ name
  end.

(** [dbx.models.workflow.common.libraries.Library]; only its [whl] field is
    read or written by the two files. *)
Record Library := { whl : string }.

(** Modelled from the spec: [AdditionalLibrariesProvider] is declared in
    [dbx.api.adjuster.adjuster], which is not among the sources.  The spec
    calls it the ArtifactSet: a flag that suppresses the core install, an
    optional core artifact and an optional extra artifact, set once at
    construction and never changed. *)
Record AdditionalLibrariesProvider := {
  no_package : bool;
  core_package : option Library;
  extra_package : option Library
}.

(** [Union[List[str], Dict[str, str]]]: the two shapes a parameter
    collection takes.  A dict keeps its insertion order. *)
Inductive Parameters :=
| ParamList (l : list string)
| ParamDict (d : list (string * string)).

(** Modelled from the spec: [ExecuteTask] and [TaskType] are declared in
    [dbx.types] and [dbx.models], which are not among the sources.  The spec
    gives the Task descriptor exactly two shapes, a script task (file and
    positional parameters) and an entry-point task (package name, entry
    point, positional parameters and named parameters). *)
Inductive ExecuteTask :=
| spark_python_task (execute_file : Path) (parameters : list string)
| python_wheel_task (package_name entry_point : string)
                    (parameters : list string)
                    (named_parameters : list (string * string)).

(** The two transfer strategies; the mlflow one keeps the artifact URI of
    the run it was built from. *)
Inductive FileUploader :=
| ContextBasedUploader
| MlflowFileUploader (artifact_uri : string).

(** A raised exception: its class name and its message. *)
Record Exn := { exn_class : string; exn_msg : string }.

Inductive Result (A : Type) :=
| Ok (a : A)
| Raise (e : Exn).
Arguments Ok {A} a.
Arguments Raise {A} e.

(** ** Events and the world *)

(** Everything a method does that is visible outside it, in the order it
    happens.  [Traverse] is [Adjuster(...).traverse(parameters)] with the
    arguments the [Adjuster] was built from. *)
Inductive Event :=
| Echo (msg : string)
| EchoParameters (msg : string) (parameters : Parameters)
| StartRun
| EndRun
| Upload (uploader : FileUploader) (local_uri : string)
| ExecuteCommand (command : string)
| InstallPackage (remote_path : string) (extras : option string)
| Traverse (libs : AdditionalLibrariesProvider) (uploader : FileUploader)
           (parameters : Parameters)
| SetupArguments (parameters : Parameters)
| ExecuteFile (file : Path)
| ExecuteEntryPoint (package_name entry_point : string).

Definition History := list Event.

(** The collaborators and the interpreter.  [w_exists] is [Path.exists],
    which answers or raises (a path it may not examine, a name too long).
    [w_int] is the built-in [int] on a [str]: the number, or [None] when it
    raises [ValueError]; what it accepts depends on the interpreter (its
    table of decimal digits and blanks, its digit limit).
    [execute_command] returns the command's output, [None] when there is
    none; [traverse] rewrites the collection it is given in place, so it
    returns the collection's new contents. *)
Record World := {
  w_int : string -> option Z;
  w_exists : Path -> Result bool;
  w_glob : Path -> string -> list Path;
  w_getmtime : Path -> Z;
  w_start_run : History -> Result string;
  w_end_run : History -> Result unit;
  w_upload_and_provide_path : History -> FileUploader -> string -> Result string;
  w_execute_command : History -> string -> Result (option string);
  w_install_package : History -> string -> option string -> Result unit;
  w_traverse : History -> AdditionalLibrariesProvider -> FileUploader ->
               Parameters -> Result Parameters;
  w_setup_arguments : History -> Parameters -> Result unit;
  w_execute_file : History -> Path -> Result unit;
  w_execute_entry_point : History -> string -> string -> Result unit
}.

(** ** Computations *)

(** A computation reads the world and the events so far; it yields the
    events it adds and how it ends. *)
Definition M (A : Type) : Type := World -> History -> list Event * Result A.

Definition ret {A} (a : A) : M A := fun _ _ => ([], Ok a).

Definition raise {A} (e : Exn) : M A := fun _ _ => ([], Raise e).

Definition bind {A B} (m : M A) (k : A -> M B) : M B :=
  fun w h =>
    let (ev, r) := m w h in
    match r with
    | Ok a => let (ev', r') := k a w (h ++ ev) in (ev ++ ev', r')
    | Raise e => (ev, Raise e)
    end.

Notation "x <- m ;; k" := (bind m (fun x => k))
  (at level 61, m at next level, right associativity).
Notation "m ;; k" := (bind m (fun _ => k))
  (at level 61, right associativity).

(** An external call: the event is recorded, then the world answers. *)
Definition call {A} (e : Event) (respond : World -> History -> Result A) : M A :=
  fun w h => ([e], respond w h).

(** A query of the local file system or of the interpreter; it leaves no
    event. *)
Definition ask {A} (f : World -> A) : M A := fun w _ => ([], Ok (f w)).

(** A query that may raise. *)
Definition query {A} (f : World -> Result A) : M A := fun w _ => ([], f w).

Definition when (b : bool) (m : M unit) : M unit := if b then m else ret tt.

(** Python truthiness of an optional object whose class defines neither
    [__bool__] nor [__len__] ([Path], [Library], the mlflow run). *)
Definition truthy {A} (o : option A) : bool :=
  match o with Some _ => true | None => false end.

Definition dbx_echo (msg : string) : M unit := fun _ _ => ([Echo msg], Ok tt).

Definition events {A} (x : list Event * Result A) : list Event := fst x.
Definition outcome {A} (x : list Event * Result A) : Result A := snd x.

(** ** Built-ins used by the two files *)

(** [sorted(l, key=key)]: ascending by key, and stable: of two entries with
    equal keys the one that came first stays first.  Written as an
    insertion sort; the result of a stable sort does not depend on the
    algorithm. *)
Fixpoint insert_by {A} (key : A -> Z) (x : A) (l : list A) : list A :=
  match l with
  | [] => [x]
  | y :: r => if (key y <? key x)%Z then y :: insert_by key x r else x :: y :: r
  end.

Fixpoint sorted {A} (key : A -> Z) (l : list A) : list A :=
  match l with
  | [] => []
  | x :: r => insert_by key x (sorted key r)
  end.

(** Truthiness of an [Optional[str]]: neither [None] nor empty. *)
Definition truthy_str (o : option string) : bool :=
  match o with
  | Some (String _ _) => true
  | _ => false
  end.

(** Truthiness of a list or dict: not empty. *)
Definition nonempty {A} (l : list A) : bool :=
  match l with [] => false | _ :: _ => true end.

(** ** package_manager.py *)

Module PackageManager.

(** [PackageManager.get_package_file] *)
Definition get_package_file (package_path : option string) : M (option Path) :=
  dbx_echo "Locating package file";;
  file_locator <-
    (if truthy_str package_path
     then ask (fun w => w_glob w (Path_div (Path_of package_path) "dist") "*.whl")
     else ask (fun w => w_glob w "dist" "*.whl"));;
  sorted_locator <- ask (fun w => sorted (w_getmtime w) file_locator);;
  if nonempty sorted_locator
  then
    let file_path := last sorted_locator EmptyString in
    dbx_echo ("Package file located in: " +++ file_path);;
    ret (Some file_path)
  else
    dbx_echo "Package file was not found";;
    ret None.

(** [PackageManager.prepare_package] *)
Definition prepare_package (package_path : option string) : M (option Library) :=
  package_file <- get_package_file package_path;;
  match package_file with
  | Some f => ret (Some {| whl := "file://" +++ f |})
  | None =>
      dbx_echo "Package file was not found. Please check the dist folder if you expect to use package-based imports";;
      ret None
  end.

(** The one field of a [PackageManager]. *)
Record t := { _package : option Library }.

(** [PackageManager.__init__] *)
Definition __init__ (package_path : option string) : M t :=
  package <- prepare_package package_path;;
  ret {| _package := package |}.

End PackageManager.

(** ** execute.py *)

Module ExecutionController.

(** The fields [__init__] sets.  [_client] is the world itself; [_run] is
    the mlflow run, kept as its artifact URI. *)
Record t := {
  additional_libraries : AdditionalLibrariesProvider;
  _requirements_file : option Path;
  _task : ExecuteTask;
  _upload_via_context : bool;
  _pip_install_extras : option string;
  _run : option string;
  _file_uploader : FileUploader
}.

(** [ExecutionController.__init__] *)
Definition __init__ (no_package : bool) (core_package extra_package : option Library)
    (upload_via_context : bool) (requirements_file : option Path)
    (task : ExecuteTask) (pip_install_extras : option string) : M t :=
  let libs := {| no_package := no_package; core_package := core_package;
                 extra_package := extra_package |} in
  if upload_via_context
  then
    dbx_echo "Context-based file uploader will be used";;
    ret {| additional_libraries := libs; _requirements_file := requirements_file;
           _task := task; _upload_via_context := upload_via_context;
           _pip_install_extras := pip_install_extras;
           _run := None; _file_uploader := ContextBasedUploader |}
  else
    dbx_echo "Mlflow-based file uploader will be used";;
    artifact_uri <- call StartRun w_start_run;;
    ret {| additional_libraries := libs; _requirements_file := requirements_file;
           _task := task; _upload_via_context := upload_via_context;
           _pip_install_extras := pip_install_extras;
           _run := Some artifact_uri;
           _file_uploader := MlflowFileUploader artifact_uri |}.

(** The collaborator operations as [self] reaches them. *)
Definition upload_and_provide_path (self : t) (local_uri : string) : M string :=
  call (Upload (_file_uploader self) local_uri)
       (fun w h => w_upload_and_provide_path w h (_file_uploader self) local_uri).

(** [self._client.client.execute_command(command, verbose=False)] *)
Definition client_execute_command (command : string) : M (option string) :=
  call (ExecuteCommand command) (fun w h => w_execute_command w h command).

Definition client_install_package (remote_path : string) (extras : option string) : M unit :=
  call (InstallPackage remote_path extras)
       (fun w h => w_install_package w h remote_path extras).

Definition adjuster_traverse (self : t) (parameters : Parameters) : M Parameters :=
  call (Traverse (additional_libraries self) (_file_uploader self) parameters)
       (fun w h => w_traverse w h (additional_libraries self) (_file_uploader self) parameters).

Definition client_setup_arguments (parameters : Parameters) : M unit :=
  call (SetupArguments parameters) (fun w h => w_setup_arguments w h parameters).

Definition mlflow_end_run : M unit := call EndRun w_end_run.

(** [ExecutionController.execute_entrypoint_file]; the console spinner
    around the call is display only. *)
Definition execute_entrypoint_file (_file : Path) : M unit :=
  dbx_echo "Starting entrypoint file execution";;
  call (ExecuteFile _file) (fun w h => w_execute_file w h _file);;
  dbx_echo "Command execution finished".

(** [ExecutionController.execute_entrypoint] *)
Definition execute_entrypoint (package_name entry_point : string) : M unit :=
  dbx_echo "Starting entrypoint execution";;
  call (ExecuteEntryPoint package_name entry_point)
       (fun w h => w_execute_entry_point w h package_name entry_point);;
  dbx_echo "Entrypoint execution finished".

Definition probe_command : string :=
  PyStr.nl +++ "        import os" +++ PyStr.nl +++
  "        print(os.environ.get(" +++ PyStr.dquote +++
  "DATABRICKS_RUNTIME_VERSION" +++ PyStr.dquote +++ "))" +++ PyStr.nl +++
  "        ".

Definition refresh_command : string := "dbutils.library.restartPython()".

(** [ExecutionController._identify_runtime_version].  The [try] holds
    only the conversion; [int] answering [None] is the [ValueError] that
    the [except] clause catches. *)
Definition _identify_runtime_version : M (option Z) :=
  _version_string <- client_execute_command probe_command;;
  let _clean_string :=
    match _version_string with
    | Some s => if String.eqb s "None" then None else Some s
    | None => None
    end in
  match _clean_string with
  | None | Some EmptyString => ret None
  | Some s =>
      converted <- ask (fun w => w_int w (hd EmptyString (PyStr.split "."%char s)));;
      match converted with
      | Some _version => ret (Some _version)
      | None =>
          dbx_echo "🚨 Cannot identify the DBR version, package may not be updated";;
          ret None
      end
  end.

(** [_version and _version >= 13] *)
Definition needs_refresh (_version : option Z) : bool :=
  match _version with
  | Some v => negb (v =? 0)%Z && (13 <=? v)%Z
  | None => false
  end.

(** [ExecutionController._refresh_python_if_necessary] *)
Definition _refresh_python_if_necessary : M unit :=
  _version <- _identify_runtime_version;;
  when (needs_refresh _version)
    (dbx_echo "🔄 Restarting Python to reflect the changes in environment";;
     client_execute_command refresh_command;;
     dbx_echo "✅ Restarting Python to reflect the changes in environment - done").

Definition attribute_error : Exn :=
  {| exn_class := "AttributeError";
     exn_msg := "'NoneType' object has no attribute 'exists'" |}.

Definition missing_requirements (requirements_file : Path) : Exn :=
  {| exn_class := "Exception";
     exn_msg := "Requirements file provided, but doesn't exist at path "
                +++ requirements_file |}.

(** [ExecutionController.install_requirements_file] *)
Definition install_requirements_file (self : t) : M unit :=
  match _requirements_file self with
  | None => raise attribute_error
  | Some requirements_file =>
      present <- query (fun w => w_exists w requirements_file);;
      if negb present
      then raise (missing_requirements requirements_file)
      else
        dbx_echo "Installing provided requirements";;
        localized_requirements_path <-
          upload_and_provide_path self ("file:fuse://" +++ requirements_file);;
        let installation_command := "%pip install -U -r " +++ localized_requirements_path in
        client_execute_command installation_command;;
        _refresh_python_if_necessary;;
        dbx_echo "Provided requirements installed"
  end.

Definition core_not_found : Exn :=
  {| exn_class := "FileNotFoundError";
     exn_msg := "Project package was not found. Please check that /dist directory exists." |}.

Definition extra_not_found : Exn :=
  {| exn_class := "FileNotFoundError";
     exn_msg := "Extra Package was not found. Please check that /dist directory exists." |}.

(** [ExecutionController.install_package] *)
Definition install_package (self : t) (pip_install_extras : option string) : M unit :=
  match core_package (additional_libraries self) with
  | None => raise core_not_found
  | Some core =>
      dbx_echo "Uploading package";;
      let stripped_package_path := PyStr.replace "file://" "" (whl core) in
      localized_package_path <-
        upload_and_provide_path self ("file:fuse://" +++ stripped_package_path);;
      dbx_echo ":white_check_mark: Uploading package - done";;
      client_install_package localized_package_path pip_install_extras;;
      _refresh_python_if_necessary;;
      dbx_echo ":white_check_mark: Installing package - done"
  end.

(** [ExecutionController.install_extra_package] *)
Definition install_extra_package (self : t) : M unit :=
  match extra_package (additional_libraries self) with
  | None => raise extra_not_found
  | Some extra =>
      dbx_echo "Uploading Extra Package";;
      let stripped_package_path := PyStr.replace "file://" "" (whl extra) in
      localized_package_path <-
        upload_and_provide_path self ("file:fuse://" +++ stripped_package_path);;
      dbx_echo ":white_check_mark: Uploading package - done";;
      client_install_package localized_package_path None;;
      _refresh_python_if_necessary;;
      dbx_echo ":white_check_mark: Installing extra package - done"
  end.

(** [ExecutionController.preprocess_task_parameters].  The opening notice
    is a [dbx_echo] whose text prints [parameters]; [traverse] rewrites
    [parameters] in place, so [setup_arguments] receives the contents it
    left. *)
Definition preprocess_task_parameters (self : t) (parameters : Parameters) : M unit :=
  call (EchoParameters ":fast_forward: Processing task parameters: " parameters)
       (fun _ _ => Ok tt);;
  resolved <- adjuster_traverse self parameters;;
  client_setup_arguments resolved;;
  dbx_echo ":white_check_mark: Processing task parameters".

(** The first statement of [run]: the requirements phase. *)
Definition requirements_phase (self : t) : M unit :=
  when (truthy (_requirements_file self)) (install_requirements_file self).

(** The three install statements that open [run]. *)
Definition install_phases (self : t) : M unit :=
  requirements_phase self;;
  when (negb (no_package (additional_libraries self)))
       (install_package self (_pip_install_extras self));;
  when (truthy (extra_package (additional_libraries self)))
       (dbx_echo "Installing extra package";;
        install_extra_package self).

(** The [if]/[elif] over the task type in [run]. *)
Definition dispatch (self : t) : M unit :=
  match _task self with
  | spark_python_task execute_file parameters =>
      preprocess_task_parameters self (ParamList parameters);;
      execute_entrypoint_file execute_file
  | python_wheel_task package_name entry_point parameters named_parameters =>
      (if nonempty named_parameters
       then preprocess_task_parameters self (ParamDict named_parameters)
       else if nonempty parameters
       then preprocess_task_parameters self (ParamList parameters)
       else ret tt);;
      execute_entrypoint package_name entry_point
  end.

(** [ExecutionController.run] *)
Definition run (self : t) : M unit :=
  install_phases self;;
  dispatch self;;
  when (truthy (_run self)) mlflow_end_run.

End ExecutionController.

(** ** Reading a trace *)

(** Every event a computation adds in world [w], from any history,
    satisfies [P]. *)
Definition emits_only {A} (w : World) (P : Event -> Prop) (m : M A) : Prop :=
  forall h, Forall P (events (m w h)).

(** The two dispatch calls. *)
Definition is_dispatch (e : Event) : bool :=
  match e with
  | ExecuteFile _ | ExecuteEntryPoint _ _ => true
  | _ => false
  end.

Definition dispatch_calls (tr : list Event) : list Event := filter is_dispatch tr.


(** The calls of parameter resolution: the traversal and the push into
    the session's argument context. *)
Definition is_parameter_call (e : Event) : bool :=
  match e with
  | Traverse _ _ _ | SetupArguments _ => true
  | _ => false
  end.

(** Whether the tracked run is open after a trace: opened by [StartRun],
    closed by [EndRun]. *)
Fixpoint run_open_from (open : bool) (tr : list Event) : bool :=
  match tr with
  | [] => open
  | StartRun :: r => run_open_from true r
  | EndRun :: r => run_open_from false r
  | _ :: r => run_open_from open r
  end.

Definition run_open (tr : list Event) : bool := run_open_from false tr.

(** What [install_requirements_file] and [install_extra_package] hand to
    the uploader. *)
Definition requirements_uri (self : ExecutionController.t) : option string :=
  option_map (fun p => "file:fuse://" +++ p) (ExecutionController._requirements_file self).

Definition extra_uri (self : ExecutionController.t) : option string :=
  option_map (fun l => "file:fuse://" +++ PyStr.replace "file://" "" (whl l))
             (extra_package (ExecutionController.additional_libraries self)).

(** What holds of every event of a run whose core install is suppressed:
    a notice is not the opening notice of the core-install path, an upload
    is that of the manifest or of the extra artifact, and an install
    command is the extra artifact's, which carries no extras. *)
Definition outside_core_install (self : ExecutionController.t) (e : Event) : Prop :=
  match e with
  | Echo msg => msg <> "Uploading package"
  | Upload _ uri => Some uri = requirements_uri self \/ Some uri = extra_uri self
  | InstallPackage _ extras => extras = None
  | _ => True
  end.

(** An event that, if it belongs to parameter resolution at all, resolves
    the collection [p]: the notice and the traversal carry [p], and
    [setup_arguments] receives what a traversal of [p] left. *)
Definition resolves_only (w : World) (self : ExecutionController.t) (p : Parameters)
    (e : Event) : Prop :=
  match e with
  | EchoParameters _ q => q = p
  | Traverse _ _ q => q = p
  | SetupArguments q =>
      exists h, w_traverse w h (ExecutionController.additional_libraries self)
                  (ExecutionController._file_uploader self) p = Ok q
  | _ => True
  end.

(** The version string the probe has to give up on: no output, the text
    [None], the empty text, or a leading component on which the
    interpreter's [int] raises [ValueError]. *)
Definition unparseable (w : World) (output : option string) : Prop :=
  match output with
  | None => True
  | Some s =>
      s = "None" \/ s = EmptyString \/
      w_int w (hd EmptyString (PyStr.split "."%char s)) = None
  end.

(** The directory [get_package_file] scans. *)
Definition dist_dir (package_path : option string) : Path :=
  if truthy_str package_path then Path_div (Path_of package_path) "dist" else "dist".

(** ** Sample worlds and controllers *)

Definition remote_failure : Exn :=
  {| exn_class := "ConnectionError"; exn_msg := "remote call failed" |}.

(** A world over a fixed file system: [present] are the files that exist,
    [dist] the wheels under [dist] with their modification times; the
    session answers the probe with [version], the uploader with [upload],
    and every other call succeeds. *)
Definition sample_world (present : list Path) (dist : list (Path * Z))
    (version : Result (option string)) (upload : Result string) : World :=
  {| w_int := PyStr.int_ascii;
     w_exists := fun p => Ok (existsb (String.eqb p) present);
     w_glob := fun d pat =>
       if String.eqb d "dist" && String.eqb pat "*.whl" then map fst dist else [];
     w_getmtime := fun p =>
       match find (fun e => String.eqb (fst e) p) dist with
       | Some e => snd e
       | None => 0%Z
       end;
     w_start_run := fun _ => Ok "dbfs:/mlflow/artifacts";
     w_end_run := fun _ => Ok tt;
     w_upload_and_provide_path := fun _ _ _ => upload;
     w_execute_command := fun _ command =>
       if String.eqb command ExecutionController.probe_command then version
       else Ok (Some EmptyString);
     w_install_package := fun _ _ _ => Ok tt;
     w_traverse := fun _ _ _ parameters => Ok parameters;
     w_setup_arguments := fun _ _ => Ok tt;
     w_execute_file := fun _ _ => Ok tt;
     w_execute_entry_point := fun _ _ _ => Ok tt |}.

Definition runtime_14 : Result (option string) := Ok (Some "14.3.x-scala2.12").

Definition calm_world : World :=
  sample_world ["reqs.txt"] [] runtime_14 (Ok "/dbfs/tmp/uploaded").

Definition core_A : Library := {| whl := "file://dist/a-0.1-py3-none-any.whl" |}.
Definition extra_B : Library := {| whl := "file://dist/b-0.1-py3-none-any.whl" |}.

(** A controller as [__init__] leaves it with the context-based uploader. *)
Definition context_controller (no_package : bool) (core extra : option Library)
    (requirements_file : option Path) (task : ExecuteTask) : ExecutionController.t :=
  {| ExecutionController.additional_libraries :=
       {| no_package := no_package; core_package := core; extra_package := extra |};
     ExecutionController._requirements_file := requirements_file;
     ExecutionController._task := task;
     ExecutionController._upload_via_context := true;
     ExecutionController._pip_install_extras := None;
     ExecutionController._run := None;
     ExecutionController._file_uploader := ContextBasedUploader |}.

Definition job_script : ExecuteTask := spark_python_task "job.py" [].

Definition wheel_job : ExecuteTask :=
  python_wheel_task "pkg" "main" ["--positional"] [("env", "dev")].

Definition wheel_job_without_parameters : ExecuteTask :=
  python_wheel_task "pkg" "main" [] [].

(** The second scenario of the spec: core install suppressed, both
    artifacts present, a manifest that exists. *)
Definition suppressed_controller : ExecutionController.t :=
  context_controller true (Some core_A) (Some extra_B) (Some "reqs.txt") wheel_job.

(** A world whose uploader fails. *)
Definition upload_fails_world : World :=
  sample_world ["reqs.txt"] [] runtime_14 (Raise remote_failure).

(** A world with three wheels under [dist]; the newest is neither first nor
    last in the listing, nor the greatest by name. *)
Definition wheels_world : World :=
  sample_world []
    [("dist/pkg-0.10-py3-none-any.whl", 100%Z);
     ("dist/pkg-0.9-py3-none-any.whl", 300%Z);
     ("dist/pkg-0.2-py3-none-any.whl", 200%Z)]
    runtime_14 (Ok "/dbfs/tmp/uploaded").

(** A controller built with the mlflow uploader, then run. *)
Definition tracked_session (core : option Library) (task : ExecuteTask) : M unit :=
  self <- ExecutionController.__init__ false core None false None task None;;
  ExecutionController.run self.

(** ** Further readings of a trace *)

(** [old in s]: [old] occurs somewhere in [s]. *)
Fixpoint occurs (old s : string) : bool :=
  match s with
  | EmptyString => PyStr.startswith old s
  | String _ s' => PyStr.startswith old s || occurs old s'
  end.

(** What follows the first dispatch call of a trace. *)
Fixpoint after_dispatch (tr : list Event) : list Event :=
  match tr with
  | [] => []
  | e :: r => if is_dispatch e then r else after_dispatch r
  end.

(** A notice or the closing of the tracked run. *)
Definition is_closing (e : Event) : bool :=
  match e with
  | Echo _ | EndRun => true
  | _ => false
  end.

(** The opening or the closing of the tracked run. *)
Definition is_tracked_run_event (e : Event) : bool :=
  match e with
  | StartRun | EndRun => true
  | _ => false
  end.


(** The uploader an event goes through: that of an upload, or the one
    handed to the [Adjuster]. *)
Definition uploader_of (e : Event) : option FileUploader :=
  match e with
  | Upload up _ | Traverse _ up _ => Some up
  | _ => None
  end.

(** The exception a result ends in, if any. *)
Definition failure {A} (r : Result A) : option Exn :=
  match r with
  | Raise x => Some x
  | Ok _ => None
  end.

(** The exception with which the world answers the call that an event
    records, made after the history [h]; a notice is never answered by
    one. *)
Definition raised_by (w : World) (h : History) (e : Event) : option Exn :=
  match e with
  | Echo _ | EchoParameters _ _ => None
  | StartRun => failure (w_start_run w h)
  | EndRun => failure (w_end_run w h)
  | Upload up uri => failure (w_upload_and_provide_path w h up uri)
  | ExecuteCommand command => failure (w_execute_command w h command)
  | InstallPackage path extras => failure (w_install_package w h path extras)
  | Traverse libs up p => failure (w_traverse w h libs up p)
  | SetupArguments p => failure (w_setup_arguments w h p)
  | ExecuteFile file => failure (w_execute_file w h file)
  | ExecuteEntryPoint package_name entry_point =>
      failure (w_execute_entry_point w h package_name entry_point)
  end.

(** The trace [tr], begun after the history [h], ends with a call that the
    world answered by raising [e]. *)
Definition stopped_by_call (w : World) (h : History) (tr : list Event) (e : Exn) : Prop :=
  exists before last_call,
    tr = before ++ [last_call] /\ raised_by w (h ++ before) last_call = Some e.

(** Whenever a computation ends in an exception, in world [w], either the
    exception satisfies [Q] or the last event of the computation is a call
    that the world answered by raising it. *)
Definition raises_only {A} (w : World) (Q : Exn -> Prop) (m : M A) : Prop :=
  forall h e,
    outcome (m w h) = Raise e -> Q e \/ stopped_by_call w h (events (m w h)) e.

(** The exceptions that come from [run] itself or from its look at the
    file system, each with what brings it about: the manifest is not
    there, the look at the manifest raises, or the core artifact is
    missing. *)
Definition own_error (w : World) (self : ExecutionController.t) (e : Exn) : Prop :=
  (exists p, ExecutionController._requirements_file self = Some p /\
             w_exists w p = Ok false /\
             e = ExecutionController.missing_requirements p) \/
  (exists p, ExecutionController._requirements_file self = Some p /\
             w_exists w p = Raise e) \/
  (no_package (ExecutionController.additional_libraries self) = false /\
   core_package (ExecutionController.additional_libraries self) = None /\
   e = ExecutionController.core_not_found).

(** A world in which the manifest cannot be examined. *)
Definition unreadable_world : World :=
  {| w_int := w_int calm_world;
     w_exists := fun _ => Raise {| exn_class := "PermissionError";
                                   exn_msg := "[Errno 13] Permission denied" |};
     w_glob := w_glob calm_world;
     w_getmtime := w_getmtime calm_world;
     w_start_run := w_start_run calm_world;
     w_end_run := w_end_run calm_world;
     w_upload_and_provide_path := w_upload_and_provide_path calm_world;
     w_execute_command := w_execute_command calm_world;
     w_install_package := w_install_package calm_world;
     w_traverse := w_traverse calm_world;
     w_setup_arguments := w_setup_arguments calm_world;
     w_execute_file := w_execute_file calm_world;
     w_execute_entry_point := w_execute_entry_point calm_world |}.

(** A world with two wheels of the same age and an older one. *)
Definition tied_wheels_world : World :=
  sample_world []
    [("dist/pkg-0.3-py3-none-any.whl", 300%Z);
     ("dist/pkg-0.1-py3-none-any.whl", 100%Z);
     ("dist/pkg-0.2-py3-none-any.whl", 300%Z)]
    runtime_14 (Ok "/dbfs/tmp/uploaded").

(** A world whose install command fails. *)
Definition install_fails_world : World :=
  {| w_int := w_int calm_world;
     w_exists := w_exists calm_world;
     w_glob := w_glob calm_world;
     w_getmtime := w_getmtime calm_world;
     w_start_run := w_start_run calm_world;
     w_end_run := w_end_run calm_world;
     w_upload_and_provide_path := w_upload_and_provide_path calm_world;
     w_execute_command := w_execute_command calm_world;
     w_install_package := fun _ _ _ => Raise remote_failure;
     w_traverse := w_traverse calm_world;
     w_setup_arguments := w_setup_arguments calm_world;
     w_execute_file := w_execute_file calm_world;
     w_execute_entry_point := w_execute_entry_point calm_world |}.


(** A world whose runtime reports its version in fullwidth digits, which
    the interpreter's [int] reads as 14. *)
Definition fullwidth_world : World :=
  {| w_int := fun s => if String.eqb s "１４" then Some 14%Z else PyStr.int_ascii s;
     w_exists := w_exists calm_world;
     w_glob := w_glob calm_world;
     w_getmtime := w_getmtime calm_world;
     w_start_run := w_start_run calm_world;
     w_end_run := w_end_run calm_world;
     w_upload_and_provide_path := w_upload_and_provide_path calm_world;
     w_execute_command := fun _ command =>
       if String.eqb command ExecutionController.probe_command then Ok (Some "１４.2")
       else Ok (Some EmptyString);
     w_install_package := w_install_package calm_world;
     w_traverse := w_traverse calm_world;
     w_setup_arguments := w_setup_arguments calm_world;
     w_execute_file := w_execute_file calm_world;
     w_execute_entry_point := w_execute_entry_point calm_world |}.

(** * Properties *)

Import ExecutionController.

(** ** Computations *)

Lemma bind_events A B (m : M A) (k : A -> M B) w h :
  events (bind m k w h) =
  events (m w h) ++
  match outcome (m w h) with
  | Ok a => events (k a w (h ++ events (m w h)))
  | Raise _ => []
  end.
Proof.
  unfold bind, events, outcome.
  destruct (m w h) as [ev [a | e]]; simpl.
  - destruct (k a w (h ++ ev)); reflexivity.
  - now rewrite app_nil_r.
Qed.

Lemma bind_outcome A B (m : M A) (k : A -> M B) w h :
  outcome (bind m k w h) =
  match outcome (m w h) with
  | Ok a => outcome (k a w (h ++ events (m w h)))
  | Raise e => Raise e
  end.
Proof.
  unfold bind, events, outcome.
  destruct (m w h) as [ev [a | e]]; simpl; [| reflexivity].
  destruct (k a w (h ++ ev)); reflexivity.
Qed.

Lemma emits_only_bind A B w P (m : M A) (k : A -> M B) :
  emits_only w P m -> (forall a, emits_only w P (k a)) -> emits_only w P (bind m k).
Proof.
  intros Hm Hk h. rewrite bind_events. apply Forall_app. split; [apply Hm |].
  destruct (outcome (m w h)); [apply Hk | constructor].
Qed.

Lemma emits_only_ret A w P (a : A) : emits_only w P (ret a).
Proof. intros h. constructor. Qed.

Lemma emits_only_raise A w P e : emits_only w P (@raise A e).
Proof. intros h. constructor. Qed.

Lemma emits_only_ask A w P (f : World -> A) : emits_only w P (ask f).
Proof. intros h. constructor. Qed.

Lemma emits_only_query A w P (f : World -> Result A) : emits_only w P (query f).
Proof. intros h. constructor. Qed.

Lemma emits_only_call A w (P : Event -> Prop) e (respond : World -> History -> Result A) :
  P e -> emits_only w P (call e respond).
Proof. intros He h. repeat constructor. exact He. Qed.

Lemma emits_only_echo w (P : Event -> Prop) msg :
  P (Echo msg) -> emits_only w P (dbx_echo msg).
Proof. intros He h. repeat constructor. exact He. Qed.

Lemma emits_only_when w P b (m : M unit) :
  (b = true -> emits_only w P m) -> emits_only w P (when b m).
Proof. destruct b; intros H; [apply H; reflexivity | apply emits_only_ret]. Qed.

(** ** The string built-ins on small inputs *)

Example int_examples :
  PyStr.int_ascii "14" = Some 14%Z /\ PyStr.int_ascii " 1_0 " = Some 10%Z /\
  PyStr.int_ascii "-5" = Some (-5)%Z /\ PyStr.int_ascii "+7" = Some 7%Z /\
  PyStr.int_ascii "" = None /\ PyStr.int_ascii "x" = None /\
  PyStr.int_ascii "1__0" = None /\ PyStr.int_ascii "_1" = None /\
  PyStr.int_ascii "1_" = None /\
  PyStr.int_ascii (String (ascii_of_nat 9) "14" +++ PyStr.nl) = Some 14%Z /\
  PyStr.int_ascii (String (ascii_of_nat 28) "14") = None.
Proof. repeat split; reflexivity. Qed.

Example split_examples :
  PyStr.split "." "14.3.x-scala2.12" = ["14"; "3"; "x-scala2"; "12"] /\
  PyStr.split "." "" = [""] /\
  PyStr.split "." ".a." = [""; "a"; ""].
Proof. repeat split; reflexivity. Qed.

Example replace_examples :
  PyStr.replace "file://" "" "file://dist/a.whl" = "dist/a.whl" /\
  PyStr.replace "file://" "" "file://dist/file://a.whl" = "dist/a.whl" /\
  PyStr.replace "file://" "" "dist/a.whl" = "dist/a.whl".
Proof. repeat split; reflexivity. Qed.

Lemma split_never_empty (sep : ascii) (s : string) : PyStr.split sep s <> [].
Proof.
  induction s as [| c s' IH]; simpl; [discriminate |].
  destruct (Ascii.eqb c sep); [discriminate |].
  destruct (PyStr.split sep s'); discriminate.
Qed.

(** ** A missing requirements manifest *)

(** C7.  When a requirements-manifest path was supplied and no file exists
    at that path, [run] ends in the configuration error
    ([Exception], naming the path) and has caused no event before it:
    no upload, no remote command, nothing at all. *)
Theorem run_missing_requirements_file (w : World) (h : History) (self : t)
    (requirements_file : Path) :
  _requirements_file self = Some requirements_file ->
  w_exists w requirements_file = Ok false ->
  run self w h = ([], Raise (missing_requirements requirements_file)).
Proof.
  intros Hreq Hnone.
  unfold run, install_phases, requirements_phase, install_requirements_file, bind, when,
    query.
  rewrite Hreq. simpl. rewrite Hnone. reflexivity.
Qed.

Lemma run_missing_requirements_file_witness :
  run (context_controller false (Some core_A) None (Some "absent.txt") job_script)
      calm_world [] = ([], Raise (missing_requirements "absent.txt")).
Proof.
  apply (@run_missing_requirements_file calm_world []
           (context_controller false (Some core_A) None (Some "absent.txt") job_script)
           "absent.txt"); reflexivity.
Defined.

(** ** A missing core artifact *)

(** C4, as the claim states it, fails: with a manifest supplied and present
    the requirements phase uploads it, installs it, probes and restarts
    before the missing core artifact is noticed. *)
Lemma run_missing_core_after_requirements :
  run (context_controller false None None (Some "reqs.txt") job_script) calm_world [] =
  ([Echo "Installing provided requirements";
    Upload ContextBasedUploader "file:fuse://reqs.txt";
    ExecuteCommand "%pip install -U -r /dbfs/tmp/uploaded";
    ExecuteCommand probe_command;
    Echo "🔄 Restarting Python to reflect the changes in environment";
    ExecuteCommand "dbutils.library.restartPython()";
    Echo "✅ Restarting Python to reflect the changes in environment - done";
    Echo "Provided requirements installed"],
   Raise core_not_found).
Proof. vm_compute. reflexivity. Qed.

(** C4, amended.  When the core install is requested and there is no core
    artifact, the core-install step raises the missing-artifact error
    without causing any event of its own, and [run] is its requirements
    phase followed by that error: the events of [run] are those of the
    requirements phase, and [run] ends in the missing-artifact error unless
    the requirements phase itself failed.  With no manifest supplied [run]
    fails with the missing-artifact error before any event. *)
Theorem run_missing_core_artifact (w : World) (h : History) (self : t) :
  no_package (additional_libraries self) = false ->
  core_package (additional_libraries self) = None ->
  (forall extras h', install_package self extras w h' = ([], Raise core_not_found)) /\
  events (run self w h) = events (requirements_phase self w h) /\
  outcome (run self w h) =
    match outcome (requirements_phase self w h) with
    | Ok _ => Raise core_not_found
    | Raise e => Raise e
    end /\
  (_requirements_file self = None -> run self w h = ([], Raise core_not_found)).
Proof.
  intros Hflag Hcore.
  assert (Hinst : forall extras h', install_package self extras w h' = ([], Raise core_not_found)).
  { intros extras h'. unfold install_package. rewrite Hcore. reflexivity. }
  split; [exact Hinst |].
  assert (Hrun : run self w h =
                 (events (requirements_phase self w h),
                  match outcome (requirements_phase self w h) with
                  | Ok _ => Raise core_not_found
                  | Raise e => Raise e
                  end)).
  { unfold run, install_phases, bind, events, outcome. rewrite Hflag. simpl.
    destruct (requirements_phase self w h) as [ev [[] | e]]; simpl; [| reflexivity].
    rewrite Hinst. now rewrite app_nil_r. }
  rewrite Hrun. repeat split.
  intros Hnone. unfold requirements_phase. rewrite Hnone. reflexivity.
Qed.

Lemma run_missing_core_artifact_witness :
  run (context_controller false None None None job_script) calm_world [] =
  ([], Raise core_not_found).
Proof.
  apply (@run_missing_core_artifact calm_world []
           (context_controller false None None None job_script));
    reflexivity.
Defined.

(** ** The runtime probe and the refresh decision *)

Arguments PyStr.split : simpl never.
Arguments PyStr.int_ascii : simpl never.

Lemma needs_refresh_spec (_version : option Z) :
  needs_refresh _version = true <-> exists v, _version = Some v /\ (13 <= v)%Z.
Proof.
  destruct _version as [v |]; simpl.
  - rewrite andb_true_iff, negb_true_iff, Z.eqb_neq, Z.leb_le. split.
    + intros [_ Hv]. now exists v.
    + intros [v' [Heq Hv]]. injection Heq as <-. split; lia.
  - split; [discriminate | intros [v [Heq _]]; discriminate].
Qed.

Lemma probe_is_not_refresh : probe_command <> refresh_command.
Proof. vm_compute. discriminate. Qed.

Lemma probe_event_is_not_refresh :
  ExecuteCommand probe_command <> ExecuteCommand refresh_command.
Proof.
  intros H. apply probe_is_not_refresh.
  exact (f_equal (fun e => match e with ExecuteCommand c => c | _ => EmptyString end) H).
Qed.

(** What the probe yields once the command has answered [output]. *)
Lemma identify_after_output (w : World) (h : History) (output : option string) :
  w_execute_command w h probe_command = Ok output ->
  exists v notice,
    _identify_runtime_version w h = (ExecuteCommand probe_command :: notice, Ok v) /\
    Forall (fun e => exists msg, e = Echo msg) notice /\
    (unparseable w output -> v = None) /\
    (forall s n, output = Some s -> s <> "None" -> s <> EmptyString ->
       w_int w (hd EmptyString (PyStr.split "."%char s)) = Some n -> v = Some n).
Proof.
  intros Hout.
  unfold _identify_runtime_version, client_execute_command, call, bind, ask.
  rewrite Hout.
  destruct output as [s |]; simpl.
  2:{ exists None, []. split; [reflexivity | split; [constructor | split; [reflexivity |]]].
      discriminate. }
  destruct (String.eqb s "None") eqn:Hnone.
  { apply String.eqb_eq in Hnone. subst s.
    exists None, []. split; [reflexivity | split; [constructor | split; [reflexivity |]]].
    intros s n Hs Hne. injection Hs as <-. congruence. }
  apply String.eqb_neq in Hnone.
  destruct s as [| c s'].
  { exists None, []. split; [reflexivity | split; [constructor | split; [reflexivity |]]].
    intros s n Hs _ He. injection Hs as <-. congruence. }
  simpl.
  destruct (w_int w (hd EmptyString (PyStr.split "."%char (String c s')))) as [n |] eqn:Hint;
    simpl.
  - exists (Some n), []. split; [reflexivity | split; [constructor | split]].
    + intros [Hbad | [Hbad | Hbad]]; congruence.
    + intros s n' Hs _ _ Hn. injection Hs as <-. congruence.
  - eexists None, [_]. split; [reflexivity | split; [| split; [reflexivity |]]].
    + repeat constructor. eexists. reflexivity.
    + intros s n' Hs _ _ Hn. injection Hs as <-. congruence.
Qed.

(** C5.  [_refresh_python_if_necessary] sends the restart command exactly
    when the probe returned a known version that is at least 13: for a
    probe that returned unknown, a version below 13, or that failed, no
    restart command is sent. *)
Theorem refresh_iff_version_at_least_13 (w : World) (h : History) :
  In (ExecuteCommand refresh_command) (events (_refresh_python_if_necessary w h)) <->
  exists v, outcome (_identify_runtime_version w h) = Ok (Some v) /\ (13 <= v)%Z.
Proof.
  unfold _refresh_python_if_necessary. rewrite bind_events.
  assert (Hprobe : ~ In (ExecuteCommand refresh_command) (events (_identify_runtime_version w h))).
  { unfold _identify_runtime_version, client_execute_command, call, bind, ask, events.
    destruct (w_execute_command w h probe_command) as [[s |] | e]; simpl.
    - destruct (String.eqb s "None"); [| destruct s as [| c s']]; simpl;
        try (intros [Heq | []]; revert Heq; apply probe_event_is_not_refresh).
      destruct (w_int w _); simpl.
      + intros [Heq | []]; revert Heq; apply probe_event_is_not_refresh.
      + intros [Heq | [Heq | []]]; [revert Heq; apply probe_event_is_not_refresh | discriminate].
    - intros [Heq | []]; revert Heq; apply probe_event_is_not_refresh.
    - intros [Heq | []]; revert Heq; apply probe_event_is_not_refresh. }
  rewrite in_app_iff.
  destruct (outcome (_identify_runtime_version w h)) as [_version | e] eqn:Hv.
  - split.
    + intros [Hin | Hin]; [contradiction |].
      destruct (needs_refresh _version) eqn:Hneed.
      * apply needs_refresh_spec in Hneed. destruct Hneed as [v [-> Hle]]. now exists v.
      * simpl in Hin. contradiction.
    + intros [v [Heq Hle]]. injection Heq as ->. right.
      assert (Hneed : needs_refresh (Some v) = true) by (apply needs_refresh_spec; now exists v).
      rewrite Hneed. simpl. unfold client_execute_command, call, dbx_echo, bind, events. simpl.
      destruct (w_execute_command w _ refresh_command); simpl; auto.
  - split; [intros [Hin | []]; contradiction | intros [v [Heq _]]; discriminate].
Qed.

(** C6, as the claim states it, fails: a failure of the probe command is
    not absorbed, it leaves [_identify_runtime_version] as it came. *)
Lemma identify_propagates_remote_failure :
  _identify_runtime_version
    (sample_world [] [] (Raise remote_failure) (Ok "/dbfs/tmp/uploaded")) [] =
  ([ExecuteCommand probe_command], Raise remote_failure).
Proof. reflexivity. Qed.

(** C6, amended.  Whatever the probe command returns,
    [_identify_runtime_version] returns normally.  It returns unknown for an
    output that is missing, the text [None], empty, or on whose leading
    dot-delimited component the interpreter's [int] raises [ValueError];
    for any other output it returns the number [int] makes of that
    component.  When the command itself fails, the failure propagates
    unchanged. *)
Theorem identify_absorbs_unparseable_output (w : World) (h : History) :
  match w_execute_command w h probe_command with
  | Ok output =>
      exists v, outcome (_identify_runtime_version w h) = Ok v /\
                (unparseable w output -> v = None) /\
                (forall s n, output = Some s -> s <> "None" -> s <> EmptyString ->
                   w_int w (hd EmptyString (PyStr.split "."%char s)) = Some n ->
                   v = Some n)
  | Raise e => outcome (_identify_runtime_version w h) = Raise e
  end.
Proof.
  destruct (w_execute_command w h probe_command) as [output | e] eqn:Hout.
  - destruct (identify_after_output w h Hout) as [v [notice [Hrun [_ [Hbad Hgood]]]]].
    exists v. rewrite Hrun. split; [reflexivity | split; [exact Hbad | exact Hgood]].
  - unfold _identify_runtime_version, client_execute_command, call, bind, outcome.
    now rewrite Hout.
Qed.

(** ** The package locator *)

Section SortedByKey.

Context {A : Type} (key : A -> Z).

Let le_key (a b : A) : Prop := (key a <= key b)%Z.

Lemma insert_by_perm (x : A) (l : list A) : Permutation (insert_by key x l) (x :: l).
Proof.
  induction l as [| y r IH]; simpl; [reflexivity |].
  destruct (key y <? key x)%Z; [| reflexivity].
  rewrite IH. apply perm_swap.
Qed.

Lemma sorted_perm (l : list A) : Permutation (sorted key l) l.
Proof.
  induction l as [| x r IH]; simpl; [reflexivity |].
  rewrite insert_by_perm. now constructor.
Qed.

Lemma insert_by_sorted (x : A) (l : list A) :
  StronglySorted le_key l -> StronglySorted le_key (insert_by key x l).
Proof.
  induction 1 as [| y r Hr IH Hy]; simpl.
  - repeat constructor.
  - destruct (key y <? key x)%Z eqn:Hlt.
    + constructor; [exact IH |].
      eapply Permutation_Forall; [symmetry; apply insert_by_perm |].
      constructor; [| exact Hy]. apply Z.ltb_lt in Hlt. unfold le_key. lia.
    + apply Z.ltb_ge in Hlt. constructor; [now constructor |].
      constructor; [exact Hlt |].
      eapply Forall_impl; [| exact Hy]. intros a Ha. unfold le_key in *. lia.
Qed.

Lemma sorted_sorted (l : list A) : StronglySorted le_key (sorted key l).
Proof.
  induction l as [| x r IH]; simpl; [constructor | now apply insert_by_sorted].
Qed.

Lemma last_in (l : list A) (d : A) : l <> [] -> In (last l d) l.
Proof.
  induction l as [| x r IH]; [congruence |]. intros _.
  destruct r as [| y r']; [now left |].
  right. apply IH. discriminate.
Qed.

Lemma last_of_sorted_is_max (l : list A) (d : A) :
  StronglySorted le_key l -> forall x, In x l -> (key x <= key (last l d))%Z.
Proof.
  induction 1 as [| y r Hr IH Hy]; intros x Hin; [destruct Hin |].
  destruct r as [| z r'].
  - destruct Hin as [<- | []]. simpl. lia.
  - change (last (y :: z :: r') d) with (last (z :: r') d).
    destruct Hin as [<- | Hin]; [| now apply IH].
    rewrite Forall_forall in Hy. apply Hy. apply last_in. discriminate.
Qed.

Lemma key_injective_on (l : list A) :
  NoDup (map key l) -> forall a b, In a l -> In b l -> key a = key b -> a = b.
Proof.
  induction l as [| x r IH]; intros Hnd a b Ha Hb Hk; [destruct Ha |].
  simpl in Hnd. inversion Hnd as [| k ks Hnotin Hnd']; subst.
  destruct Ha as [<- | Ha], Hb as [<- | Hb]; auto.
  - exfalso. apply Hnotin. rewrite Hk. now apply in_map.
  - exfalso. apply Hnotin. rewrite <- Hk. now apply in_map.
Qed.

(** The entry [sorted(l, key=key)[-1]] picks. *)
Lemma latest_is_max (l : list A) (d : A) :
  l <> [] ->
  In (last (sorted key l) d) l /\
  forall x, In x l -> (key x <= key (last (sorted key l) d))%Z.
Proof.
  intros Hne.
  assert (Hs : sorted key l <> []).
  { intros Hnil. apply Hne. apply Permutation_nil. rewrite <- Hnil.
    apply sorted_perm. }
  split.
  - apply (Permutation_in _ (sorted_perm l)). now apply last_in.
  - intros x Hx. apply last_of_sorted_is_max; [apply sorted_sorted |].
    apply (Permutation_in _ (Permutation_sym (sorted_perm l))). exact Hx.
Qed.

Lemma latest_perm (l l' : list A) (d : A) :
  Permutation l l' -> NoDup (map key l) -> l <> [] ->
  last (sorted key l') d = last (sorted key l) d.
Proof.
  intros Hp Hnd Hne.
  assert (Hne' : l' <> []).
  { intros ->. apply Hne. now apply Permutation_nil. }
  destruct (@latest_is_max l d Hne) as [Hin Hmax].
  destruct (@latest_is_max l' d Hne') as [Hin' Hmax'].
  apply (@key_injective_on l Hnd).
  - apply (Permutation_in _ (Permutation_sym Hp)). exact Hin'.
  - exact Hin.
  - apply Z.le_antisymm.
    + apply Hmax. apply (Permutation_in _ (Permutation_sym Hp)). exact Hin'.
    + apply Hmax'. apply (Permutation_in _ Hp). exact Hin.
Qed.

End SortedByKey.

Lemma get_package_file_outcome (w : World) (h : History) (package_path : option string) :
  outcome (PackageManager.get_package_file package_path w h) =
  match sorted (w_getmtime w) (w_glob w (dist_dir package_path) "*.whl") with
  | [] => Ok None
  | l => Ok (Some (last l EmptyString))
  end.
Proof.
  unfold PackageManager.get_package_file, dist_dir, bind, ask, dbx_echo, ret, outcome.
  destruct (truthy_str package_path); simpl;
    match goal with
    | |- context [sorted ?k ?l] => destruct (sorted k l); reflexivity
    end.
Qed.

(** C8.  Let the candidates be what the glob for wheels under the [dist]
    directory yields.  With no candidate [get_package_file] returns
    [None].  With candidates whose modification times are pairwise
    distinct it returns a candidate that every other candidate is strictly
    older than; and the answer is the same in whatever order the
    directory lists the candidates. *)
Theorem get_package_file_latest (w : World) (h : History) (package_path : option string) :
  let candidates := w_glob w (dist_dir package_path) "*.whl" in
  (candidates = [] ->
   outcome (PackageManager.get_package_file package_path w h) = Ok None) /\
  (candidates <> [] -> NoDup (map (w_getmtime w) candidates) ->
   exists f,
     outcome (PackageManager.get_package_file package_path w h) = Ok (Some f) /\
     In f candidates /\
     forall g, In g candidates -> g <> f -> (w_getmtime w g < w_getmtime w f)%Z) /\
  (forall w' h',
     (forall p, w_getmtime w' p = w_getmtime w p) ->
     Permutation (w_glob w' (dist_dir package_path) "*.whl") candidates ->
     NoDup (map (w_getmtime w) candidates) ->
     outcome (PackageManager.get_package_file package_path w' h') =
     outcome (PackageManager.get_package_file package_path w h)).
Proof.
  intros candidates. split; [| split].
  - intros Hnil. rewrite get_package_file_outcome. fold candidates. now rewrite Hnil.
  - intros Hne Hnd. rewrite get_package_file_outcome. fold candidates.
    destruct (@latest_is_max _ (w_getmtime w) candidates EmptyString Hne) as [Hin Hmax].
    exists (last (sorted (w_getmtime w) candidates) EmptyString).
    split; [| split; [exact Hin |]].
    + destruct (sorted (w_getmtime w) candidates) eqn:Hs; [| reflexivity].
      exfalso. apply Hne. apply Permutation_nil. rewrite <- Hs. apply sorted_perm.
    + intros g Hg Hneq.
      destruct (Z.eq_dec (w_getmtime w g)
                  (w_getmtime w (last (sorted (w_getmtime w) candidates) EmptyString)))
        as [Heq | Hlt].
      * exfalso. apply Hneq. now apply (@key_injective_on _ (w_getmtime w) candidates Hnd).
      * specialize (Hmax g Hg). lia.
  - intros w' h' Hmtime Hperm Hnd. rewrite !get_package_file_outcome. fold candidates.
    set (l' := w_glob w' (dist_dir package_path) "*.whl") in *.
    assert (Hsame : sorted (w_getmtime w') l' = sorted (w_getmtime w) l').
    { clear Hperm. induction l' as [| x r IH]; simpl; [reflexivity |].
      rewrite IH. generalize (sorted (w_getmtime w) r). intros s.
      induction s as [| y s' IHs]; simpl; [reflexivity |].
      now rewrite !Hmtime, IHs. }
    rewrite Hsame.
    destruct candidates as [| c cs] eqn:Hc.
    + apply Permutation_sym, Permutation_nil in Hperm. now rewrite Hperm.
    + assert (Hne : c :: cs <> []) by discriminate.
      pose proof (@latest_perm _ (w_getmtime w) (c :: cs) l' EmptyString
                    (Permutation_sym Hperm) Hnd Hne) as Hlast.
      assert (Hs : forall l, l <> [] -> sorted (w_getmtime w) l <> []).
      { intros l Hl Hnil. apply Hl. apply Permutation_nil. rewrite <- Hnil.
        apply sorted_perm. }
      assert (Hne' : l' <> []).
      { intros Hnil. rewrite Hnil in Hperm.
        apply Permutation_nil in Hperm. discriminate. }
      destruct (sorted (w_getmtime w) l') eqn:H1; [now apply Hs in H1 |].
      destruct (sorted (w_getmtime w) (c :: cs)) eqn:H2; [now apply Hs in H2 |].
      now rewrite Hlast.
Qed.

(** ** Events of the controller's steps *)

(** One step along the structure of [m] in a goal [emits_only w P m]. *)
Ltac emits_base :=
  lazymatch goal with
  | |- emits_only _ _ (ret _) => apply emits_only_ret
  | |- emits_only _ _ (raise _) => apply emits_only_raise
  | |- emits_only _ _ (ask _) => apply emits_only_ask
  | |- emits_only _ _ (query _) => apply emits_only_query
  | |- emits_only _ _ (dbx_echo _) => apply emits_only_echo
  | |- emits_only _ _ (call _ _) => apply emits_only_call
  | |- emits_only _ _ (bind _ _) => apply emits_only_bind; [| intros ?]
  | |- emits_only _ _ (when _ _) => apply emits_only_when; intros ?
  | |- emits_only _ _ (let _ := _ in _) => cbv zeta
  | |- emits_only _ _ (if ?b then _ else _) => destruct b eqn:?
  | |- emits_only _ _ (match ?x with _ => _ end) => destruct x eqn:?
  end.

(** The events of [_refresh_python_if_necessary]: the probe, its notice
    when the version cannot be read, and the restart between its two
    notices. *)
Lemma emits_only_refresh (w : World) (P : Event -> Prop) :
  P (ExecuteCommand probe_command) ->
  P (Echo "🚨 Cannot identify the DBR version, package may not be updated") ->
  P (Echo "🔄 Restarting Python to reflect the changes in environment") ->
  P (ExecuteCommand refresh_command) ->
  P (Echo "✅ Restarting Python to reflect the changes in environment - done") ->
  emits_only w P _refresh_python_if_necessary.
Proof.
  intros Hprobe Hnotice Hstart Hrestart Hdone.
  unfold _refresh_python_if_necessary, _identify_runtime_version, client_execute_command.
  repeat emits_base; assumption.
Qed.

(** The events of [preprocess_task_parameters]: the notice, the traversal
    of the collection it was given, the push of what the traversal left,
    the closing notice. *)
Lemma emits_only_preprocess (w : World) (P : Event -> Prop) (self : t)
    (parameters : Parameters) :
  P (EchoParameters ":fast_forward: Processing task parameters: " parameters) ->
  P (Traverse (additional_libraries self) (_file_uploader self) parameters) ->
  (forall resolved h',
     w_traverse w h' (additional_libraries self) (_file_uploader self) parameters
       = Ok resolved ->
     P (SetupArguments resolved)) ->
  P (Echo ":white_check_mark: Processing task parameters") ->
  emits_only w P (preprocess_task_parameters self parameters).
Proof.
  intros Hnotice Htraverse Hsetup Hdone h.
  unfold preprocess_task_parameters, adjuster_traverse, client_setup_arguments,
    call, dbx_echo, bind, events. simpl.
  destruct (w_traverse w _ _ _ parameters) as [resolved | e] eqn:Hres; simpl.
  - destruct (w_setup_arguments w _ resolved) as [[] | e]; simpl;
      repeat constructor; eauto.
  - repeat constructor; auto.
Qed.

(** Breaks a goal [emits_only w P m] down to one goal [P e] per event
    that [m] can cause. *)
Ltac emits :=
  repeat lazymatch goal with
    | |- emits_only _ _ _refresh_python_if_necessary => apply emits_only_refresh
    | |- emits_only _ _ (preprocess_task_parameters _ _) => apply emits_only_preprocess
    | |- emits_only _ _ _ => emits_base
    end.

Lemma string_neq (a b : string) : String.eqb a b = false -> a <> b.
Proof. apply String.eqb_neq. Qed.

(** ** A suppressed core install *)

(** C3.  When the core install is suppressed, [run] skips the core-install
    statement, whatever the core artifact is, and no event of [run] belongs
    to the core-install path: its opening notice never appears, every
    upload is that of the requirements manifest or of the extra artifact,
    and every install command is the extra artifact's (no extras). *)
Theorem no_core_install_when_suppressed (w : World) (h : History) (self : t) :
  no_package (additional_libraries self) = true ->
  when (negb (no_package (additional_libraries self)))
       (install_package self (_pip_install_extras self)) = ret tt /\
  Forall (outside_core_install self) (events (run self w h)).
Proof.
  intros Hflag. split; [now rewrite Hflag |].
  revert h. change (emits_only w (outside_core_install self) (run self)).
  unfold run, install_phases, requirements_phase, install_requirements_file,
    install_extra_package, dispatch, execute_entrypoint_file, execute_entrypoint,
    upload_and_provide_path, client_execute_command, client_install_package,
    mlflow_end_run.
  rewrite Hflag. simpl negb.
  emits; simpl; try exact I; try reflexivity; try discriminate;
    try (apply string_neq; reflexivity).
  - match goal with
    | H : _requirements_file self = Some _ |- _ =>
        left; unfold requirements_uri; rewrite H; reflexivity
    end.
  - match goal with
    | H : extra_package (additional_libraries self) = Some _ |- _ =>
        right; unfold extra_uri; rewrite H; reflexivity
    end.
Qed.

(** ** Parameter resolution *)

Lemma emits_only_install_phases (w : World) (P : Event -> Prop) (self : t) :
  (forall e, is_parameter_call e = false -> is_dispatch e = false ->
             (forall msg q, e <> EchoParameters msg q) -> P e) ->
  emits_only w P (install_phases self).
Proof.
  intros HP.
  unfold install_phases, requirements_phase, install_requirements_file,
    install_package, install_extra_package,
    upload_and_provide_path, client_execute_command, client_install_package.
  emits; apply HP; try reflexivity; discriminate.
Qed.

(** The events of [run] once the install phases have gone through: theirs,
    then those of the dispatch statement, then those of the closing
    statement. *)
Lemma run_events_after_install (w : World) (h : History) (self : t) :
  outcome (install_phases self w h) = Ok tt ->
  exists rest,
    events (run self w h) =
    events (install_phases self w h) ++
    events (dispatch self w (h ++ events (install_phases self w h))) ++ rest.
Proof.
  intros Hok. unfold run. rewrite bind_events, Hok, bind_events.
  eexists. reflexivity.
Qed.

(** How [preprocess_task_parameters] begins: the notice, the traversal of
    the collection, then the push of what the traversal returned. *)
Lemma preprocess_events (w : World) (h : History) (self : t) (parameters : Parameters) :
  let notice := EchoParameters ":fast_forward: Processing task parameters: " parameters in
  exists rest,
    events (preprocess_task_parameters self parameters w h) =
    notice :: Traverse (additional_libraries self) (_file_uploader self) parameters :: rest /\
    forall resolved,
      w_traverse w (h ++ [notice]) (additional_libraries self) (_file_uploader self)
        parameters = Ok resolved ->
      exists rest', rest = SetupArguments resolved :: rest'.
Proof.
  intros notice.
  unfold preprocess_task_parameters, adjuster_traverse, client_setup_arguments,
    call, dbx_echo, bind, events. simpl. fold notice.
  destruct (w_traverse w (h ++ [notice]) _ _ parameters) as [resolved | e]; simpl.
  - destruct (w_setup_arguments w _ resolved) as [[] | e]; simpl;
      (eexists; split; [reflexivity |]);
      intros resolved' Heq; injection Heq as <-; eexists; reflexivity.
  - eexists. split; [reflexivity | discriminate].
Qed.

(** C10.  For an entry-point task whose named and positional parameters
    are both non-empty, every event of [run] that belongs to parameter
    resolution concerns the named parameters: the traversal is given the
    named parameters and [setup_arguments] what that traversal left, so the
    positional parameters reach neither.  And the resolution does happen:
    once the install phases have gone through, [run] goes on with the
    notice and the traversal of the named parameters, and when the
    traversal returns, the next event pushes what it left into the
    session's argument context with [setup_arguments]. *)
Theorem named_parameters_take_precedence (w : World) (h : History) (self : t)
    (package_name entry_point : string) (parameters : list string)
    (named_parameters : list (string * string)) :
  _task self = python_wheel_task package_name entry_point parameters named_parameters ->
  named_parameters <> [] ->
  parameters <> [] ->
  Forall (resolves_only w self (ParamDict named_parameters)) (events (run self w h)) /\
  Forall (fun e => e <> Traverse (additional_libraries self) (_file_uploader self)
                         (ParamList parameters)) (events (run self w h)) /\
  (outcome (install_phases self w h) = Ok tt ->
   let notice :=
     EchoParameters ":fast_forward: Processing task parameters: "
                    (ParamDict named_parameters) in
   let h1 := h ++ events (install_phases self w h) in
   exists rest,
     events (run self w h) =
     events (install_phases self w h) ++
     notice :: Traverse (additional_libraries self) (_file_uploader self)
                 (ParamDict named_parameters) :: rest /\
     forall resolved,
       w_traverse w (h1 ++ [notice]) (additional_libraries self) (_file_uploader self)
         (ParamDict named_parameters) = Ok resolved ->
       exists rest', rest = SetupArguments resolved :: rest').
Proof.
  intros Htask Hnamed Hpos.
  assert (Hall : Forall (resolves_only w self (ParamDict named_parameters))
                   (events (run self w h))).
  { revert h. change (emits_only w (resolves_only w self (ParamDict named_parameters))
                        (run self)).
    unfold run. apply emits_only_bind; [| intros []; apply emits_only_bind; [| intros []]].
    - apply emits_only_install_phases. intros [] Hp Hd He; simpl; try exact I;
        try discriminate. exfalso. now apply (He msg parameters0).
    - unfold dispatch. rewrite Htask.
      destruct named_parameters as [| n ns]; [congruence |]. simpl nonempty. cbv iota.
      unfold execute_entrypoint. emits; simpl; try exact I; try reflexivity.
      intros resolved h' Hres. now exists h'.
    - unfold mlflow_end_run. emits. exact I. }
  split; [exact Hall |]. split.
  - eapply Forall_impl; [| exact Hall]. intros e He Heq. subst e. simpl in He. discriminate.
  - intros Hok notice h1.
    destruct (run_events_after_install w h self Hok) as [rest0 ->]. fold h1.
    unfold dispatch. rewrite Htask.
    destruct named_parameters as [| n ns]; [congruence |]. simpl nonempty. cbv iota.
    rewrite bind_events.
    destruct (preprocess_events w h1 self (ParamDict (n :: ns))) as [rest1 [-> Hpush]].
    fold notice in Hpush |- *.
    eexists. split.
    + simpl. reflexivity.
    + intros resolved Hres. destruct (Hpush resolved Hres) as [rest' ->].
      eexists. simpl. reflexivity.
Qed.

(** C1 fails on the code.  On the spec's own scenario (core artifact
    present, no manifest, a script task with an empty parameter list,
    runtime 14) the empty list is traversed and pushed with
    [setup_arguments] all the same: the script branch of [run] lacks the
    test for non-empty parameters that the entry-point branch makes. *)
Lemma script_task_resolves_empty_parameters :
  run (context_controller false (Some core_A) None None job_script) calm_world [] =
  ([Echo "Uploading package";
    Upload ContextBasedUploader "file:fuse://dist/a-0.1-py3-none-any.whl";
    Echo ":white_check_mark: Uploading package - done";
    InstallPackage "/dbfs/tmp/uploaded" None;
    ExecuteCommand probe_command;
    Echo "🔄 Restarting Python to reflect the changes in environment";
    ExecuteCommand "dbutils.library.restartPython()";
    Echo "✅ Restarting Python to reflect the changes in environment - done";
    Echo ":white_check_mark: Installing package - done";
    EchoParameters ":fast_forward: Processing task parameters: " (ParamList []);
    Traverse {| no_package := false; core_package := Some core_A; extra_package := None |}
             ContextBasedUploader (ParamList []);
    SetupArguments (ParamList []);
    Echo ":white_check_mark: Processing task parameters";
    Echo "Starting entrypoint file execution";
    ExecuteFile "job.py";
    Echo "Command execution finished"],
   Ok tt).
Proof. vm_compute. reflexivity. Qed.

(** Where the test for non-empty parameters is made and where it is not.
    For an entry-point task with no named and no positional parameter,
    [run] makes no traversal and no [setup_arguments] call.  For a script
    task the parameter list is resolved whether or not it is empty: once
    the install phases have gone through, [run] traverses the list and,
    when the traversal returns, pushes what it left with
    [setup_arguments]. *)
Theorem parameter_resolution_guard (w : World) (h : History) (self : t) :
  (forall package_name entry_point,
     _task self = python_wheel_task package_name entry_point [] [] ->
     Forall (fun e => is_parameter_call e = false) (events (run self w h))) /\
  (forall execute_file parameters,
     _task self = spark_python_task execute_file parameters ->
     outcome (install_phases self w h) = Ok tt ->
     let notice :=
       EchoParameters ":fast_forward: Processing task parameters: " (ParamList parameters) in
     let h1 := h ++ events (install_phases self w h) in
     exists rest,
       events (run self w h) =
       events (install_phases self w h) ++
       notice :: Traverse (additional_libraries self) (_file_uploader self)
                   (ParamList parameters) :: rest /\
       forall resolved,
         w_traverse w (h1 ++ [notice]) (additional_libraries self) (_file_uploader self)
           (ParamList parameters) = Ok resolved ->
         exists rest', rest = SetupArguments resolved :: rest').
Proof.
  split.
  - intros package_name entry_point Htask.
    revert h. change (emits_only w (fun e => is_parameter_call e = false) (run self)).
    unfold run. apply emits_only_bind; [| intros []; apply emits_only_bind; [| intros []]].
    + apply emits_only_install_phases. auto.
    + unfold dispatch. rewrite Htask. simpl. unfold execute_entrypoint.
      emits; reflexivity.
    + unfold mlflow_end_run. emits. reflexivity.
  - intros execute_file parameters Htask Hok notice h1.
    destruct (run_events_after_install w h self Hok) as [rest0 ->]. fold h1.
    unfold dispatch. rewrite Htask, bind_events.
    destruct (preprocess_events w h1 self (ParamList parameters)) as [rest1 [-> Hpush]].
    fold notice in Hpush |- *.
    eexists. split.
    + simpl. reflexivity.
    + intros resolved Hres. destruct (Hpush resolved Hres) as [rest' ->].
      eexists. simpl. reflexivity.
Qed.

(** ** Dispatch *)


Lemma dispatch_calls_none (l : list Event) :
  Forall (fun e => is_dispatch e = false) l -> dispatch_calls l = [].
Proof.
  induction 1 as [| e l He _ IH]; [reflexivity |].
  unfold dispatch_calls in *. simpl. now rewrite He.
Qed.

Lemma install_phases_do_not_dispatch (w : World) (h : History) (self : t) :
  dispatch_calls (events (install_phases self w h)) = [].
Proof.
  apply dispatch_calls_none. apply emits_only_install_phases. auto.
Qed.

Lemma preprocess_does_not_dispatch (w : World) (h : History) (self : t)
    (parameters : Parameters) :
  dispatch_calls (events (preprocess_task_parameters self parameters w h)) = [].
Proof.
  apply dispatch_calls_none. revert h.
  change (emits_only w (fun e => is_dispatch e = false)
            (preprocess_task_parameters self parameters)).
  emits; reflexivity.
Qed.






(** ** Witnesses on the sample worlds *)

Lemma no_core_install_when_suppressed_witness :
  when (negb (no_package (additional_libraries suppressed_controller)))
       (install_package suppressed_controller (_pip_install_extras suppressed_controller))
    = ret tt /\
  Forall (outside_core_install suppressed_controller)
         (events (run suppressed_controller calm_world [])).
Proof.
  apply (@no_core_install_when_suppressed calm_world [] suppressed_controller).
  reflexivity.
Defined.

Lemma named_parameters_take_precedence_witness :
  Forall (resolves_only calm_world suppressed_controller (ParamDict [("env", "dev")]))
         (events (run suppressed_controller calm_world [])) /\
  Forall (fun e => e <> Traverse (additional_libraries suppressed_controller)
                         (_file_uploader suppressed_controller)
                         (ParamList ["--positional"]))
         (events (run suppressed_controller calm_world [])) /\
  (outcome (install_phases suppressed_controller calm_world []) = Ok tt ->
   let notice :=
     EchoParameters ":fast_forward: Processing task parameters: "
                    (ParamDict [("env", "dev")]) in
   let h1 := [] ++ events (install_phases suppressed_controller calm_world []) in
   exists rest,
     events (run suppressed_controller calm_world []) =
     events (install_phases suppressed_controller calm_world []) ++
     notice :: Traverse (additional_libraries suppressed_controller)
                 (_file_uploader suppressed_controller)
                 (ParamDict [("env", "dev")]) :: rest /\
     forall resolved,
       w_traverse calm_world (h1 ++ [notice]) (additional_libraries suppressed_controller)
         (_file_uploader suppressed_controller) (ParamDict [("env", "dev")]) = Ok resolved ->
       exists rest', rest = SetupArguments resolved :: rest').
Proof.
  apply (@named_parameters_take_precedence calm_world [] suppressed_controller
           "pkg" "main" ["--positional"] [("env", "dev")]);
    [reflexivity | discriminate | discriminate].
Defined.

Lemma parameter_resolution_guard_witness :
  Forall (fun e => is_parameter_call e = false)
         (events (run (context_controller false (Some core_A) None None
                         wheel_job_without_parameters) calm_world [])).
Proof.
  apply (proj1 (@parameter_resolution_guard calm_world []
                  (context_controller false (Some core_A) None None
                     wheel_job_without_parameters)) "pkg" "main").
  reflexivity.
Defined.

Lemma get_package_file_latest_witness :
  exists f,
    outcome (PackageManager.get_package_file None wheels_world []) = Ok (Some f) /\
    In f (w_glob wheels_world (dist_dir None) "*.whl") /\
    forall g, In g (w_glob wheels_world (dist_dir None) "*.whl") -> g <> f ->
              (w_getmtime wheels_world g < w_getmtime wheels_world f)%Z.
Proof.
  apply (proj1 (proj2 (@get_package_file_latest wheels_world [] None))).
  - vm_compute. discriminate.
  - vm_compute. repeat constructor; simpl; intuition discriminate.
Defined.

Example get_package_file_newest_wheel :
  outcome (PackageManager.get_package_file None wheels_world []) =
  Ok (Some "dist/pkg-0.9-py3-none-any.whl").
Proof. reflexivity. Qed.

(** ** The tracked run *)

(** C2 fails on the code.  With the mlflow uploader and an upload that
    fails, the run opened by [__init__] is still open when the failure
    leaves [run]: [mlflow.end_run] is the last statement of [run] and is
    reached only when nothing before it raised. *)
Lemma tracked_run_left_open_when_upload_fails :
  tracked_session (Some core_A) job_script upload_fails_world [] =
  ([Echo "Mlflow-based file uploader will be used";
    StartRun;
    Echo "Uploading package";
    Upload (MlflowFileUploader "dbfs:/mlflow/artifacts")
           "file:fuse://dist/a-0.1-py3-none-any.whl"],
   Raise remote_failure) /\
  run_open (events (tracked_session (Some core_A) job_script upload_fails_world [])) = true.
Proof. split; reflexivity. Qed.

(** When [run] ends normally on a controller that holds a tracked run, its
    last event is the closing of that run. *)
Theorem tracked_run_closed_on_completion (w : World) (h : History) (self : t) :
  truthy (_run self) = true ->
  outcome (run self w h) = Ok tt ->
  exists before, events (run self w h) = before ++ [EndRun].
Proof.
  intros Hrun. unfold run.
  rewrite !bind_outcome, bind_events.
  destruct (outcome (install_phases self w h)) as [[] | e]; [| discriminate].
  rewrite bind_events.
  destruct (outcome (dispatch self w _)) as [[] | e]; [| discriminate].
  intros _. rewrite Hrun. unfold when, mlflow_end_run, call, events at 3. simpl.
  eexists. rewrite app_assoc. reflexivity.
Qed.

Lemma tracked_run_closed_on_completion_witness :
  exists before,
    events (run {| additional_libraries :=
                     {| no_package := true; core_package := None; extra_package := None |};
                   _requirements_file := None;
                   _task := job_script;
                   _upload_via_context := false;
                   _pip_install_extras := None;
                   _run := Some "dbfs:/mlflow/artifacts";
                   _file_uploader := MlflowFileUploader "dbfs:/mlflow/artifacts" |}
                calm_world []) = before ++ [EndRun].
Proof.
  apply tracked_run_closed_on_completion; reflexivity.
Defined.

Lemma run_without_tracked_run (w : World) (self : t) :
  _run self = None ->
  emits_only w (fun e => e <> StartRun /\ e <> EndRun) (run self).
Proof.
  intros Hrun.
  unfold run, install_phases, requirements_phase, install_requirements_file,
    install_package, install_extra_package, dispatch, execute_entrypoint_file,
    execute_entrypoint, upload_and_provide_path, client_execute_command,
    client_install_package, mlflow_end_run.
  rewrite Hrun. simpl truthy.
  emits; try (intros resolved h' _); try (split; discriminate); discriminate.
Qed.

(** A controller built with the context-based uploader never opens a
    tracked run and never closes one: neither its construction nor its
    [run] causes a [StartRun] or an [EndRun]. *)
Theorem context_strategy_has_no_tracked_run (w : World) (h : History)
    (suppress : bool) (core extra : option Library) (requirements_file : option Path)
    (task : ExecuteTask) (pip_install_extras : option string) :
  Forall (fun e => e <> StartRun /\ e <> EndRun)
    (events ((self <- __init__ suppress core extra true requirements_file task
                        pip_install_extras;;
              run self) w h)).
Proof.
  rewrite bind_events. unfold __init__ at 1 2 3. simpl.
  constructor; [split; discriminate |].
  apply run_without_tracked_run. reflexivity.
Qed.

(** ** The scenarios of the spec, evaluated *)

(** Core install suppressed, both artifacts present, an existing manifest:
    the manifest and the extra artifact are uploaded and installed, each
    followed by the probe and the restart, then the task is dispatched. *)
Example suppressed_core_scenario :
  run suppressed_controller calm_world [] =
  ([Echo "Installing provided requirements";
    Upload ContextBasedUploader "file:fuse://reqs.txt";
    ExecuteCommand "%pip install -U -r /dbfs/tmp/uploaded";
    ExecuteCommand probe_command;
    Echo "🔄 Restarting Python to reflect the changes in environment";
    ExecuteCommand "dbutils.library.restartPython()";
    Echo "✅ Restarting Python to reflect the changes in environment - done";
    Echo "Provided requirements installed";
    Echo "Installing extra package";
    Echo "Uploading Extra Package";
    Upload ContextBasedUploader "file:fuse://dist/b-0.1-py3-none-any.whl";
    Echo ":white_check_mark: Uploading package - done";
    InstallPackage "/dbfs/tmp/uploaded" None;
    ExecuteCommand probe_command;
    Echo "🔄 Restarting Python to reflect the changes in environment";
    ExecuteCommand "dbutils.library.restartPython()";
    Echo "✅ Restarting Python to reflect the changes in environment - done";
    Echo ":white_check_mark: Installing extra package - done";
    EchoParameters ":fast_forward: Processing task parameters: "
                   (ParamDict [("env", "dev")]);
    Traverse (additional_libraries suppressed_controller) ContextBasedUploader
             (ParamDict [("env", "dev")]);
    SetupArguments (ParamDict [("env", "dev")]);
    Echo ":white_check_mark: Processing task parameters";
    Echo "Starting entrypoint execution";
    ExecuteEntryPoint "pkg" "main";
    Echo "Entrypoint execution finished"],
   Ok tt).
Proof. vm_compute. reflexivity. Qed.

Example probe_reads_major_version :
  _identify_runtime_version calm_world [] = ([ExecuteCommand probe_command], Ok (Some 14%Z)).
Proof. reflexivity. Qed.

Example probe_gives_up_on_text :
  _identify_runtime_version
    (sample_world [] [] (Ok (Some "custom:snapshot")) (Ok "/dbfs/tmp/uploaded")) [] =
  ([ExecuteCommand probe_command;
    Echo "🚨 Cannot identify the DBR version, package may not be updated"],
   Ok None).
Proof. reflexivity. Qed.

Example probe_gives_up_on_none_sentinel :
  _identify_runtime_version
    (sample_world [] [] (Ok (Some "None")) (Ok "/dbfs/tmp/uploaded")) [] =
  ([ExecuteCommand probe_command], Ok None).
Proof. reflexivity. Qed.

Example no_restart_below_13 :
  _refresh_python_if_necessary
    (sample_world [] [] (Ok (Some "12.2.x-scala2.12")) (Ok "/dbfs/tmp/uploaded")) [] =
  ([ExecuteCommand probe_command], Ok tt).
Proof. reflexivity. Qed.

Example tracked_run_closed_when_all_goes_well :
  run_open (events (tracked_session (Some core_A) job_script calm_world [])) = false.
Proof. reflexivity. Qed.

(** * Further properties *)

(** ** The package locator on equal modification times *)

Section LatestByKey.

Context {A : Type} (key : A -> Z).

Lemma last_insert_by (x : A) (s : list A) (d : A) :
  last (insert_by key x s) d =
  if forallb (fun y => (key y <? key x)%Z) s then x else last s d.
Proof.
  induction s as [| y r IH]; [reflexivity |].
  simpl insert_by. simpl forallb.
  destruct (key y <? key x)%Z.
  - simpl andb.
    assert (Hne : insert_by key x r <> []).
    { destruct r as [| z r']; simpl; [discriminate |].
      destruct (key z <? key x)%Z; discriminate. }
    destruct (insert_by key x r) as [| z t] eqn:Hins; [congruence |].
    change (last (y :: z :: t) d) with (last (z :: t) d). rewrite IH.
    destruct (forallb (fun y0 => (key y0 <? key x)%Z) r) eqn:Hall; [reflexivity |].
    destruct r as [| z' r']; [discriminate | reflexivity].
  - reflexivity.
Qed.

Lemma forallb_sorted (f : A -> bool) (l : list A) :
  forallb f (sorted key l) = forallb f l.
Proof.
  apply eq_true_iff_eq. rewrite !forallb_forall.
  split; intros H x Hx; apply H.
  - apply (Permutation_in _ (Permutation_sym (sorted_perm key l))). exact Hx.
  - apply (Permutation_in _ (sorted_perm key l)). exact Hx.
Qed.

(** Where [sorted(l, key=key)[-1]] stands in [l]: nothing before it has a
    greater key, everything after it has a smaller one. *)
Lemma latest_position (l : list A) (d : A) :
  l <> [] ->
  exists before after,
    l = before ++ last (sorted key l) d :: after /\
    Forall (fun y => (key y <= key (last (sorted key l) d))%Z) before /\
    Forall (fun y => (key y < key (last (sorted key l) d))%Z) after.
Proof.
  induction l as [| x r IH]; [congruence |]. intros _.
  simpl sorted. rewrite last_insert_by, forallb_sorted.
  destruct (forallb (fun y => (key y <? key x)%Z) r) eqn:Hall.
  - exists [], r. split; [reflexivity |]. split; [constructor |].
    rewrite forallb_forall in Hall. apply Forall_forall.
    intros y Hy. apply Z.ltb_lt. now apply Hall.
  - assert (Hne : r <> []) by (intros ->; discriminate).
    destruct (IH Hne) as [before [after [Heq [Hbefore Hafter]]]].
    exists (x :: before), after. split; [simpl; now rewrite <- Heq |].
    split; [| exact Hafter]. constructor; [| exact Hbefore].
    destruct (forallb_forall (fun y => (key y <? key x)%Z) r) as [_ Hback].
    destruct (Z_lt_le_dec (key (last (sorted key r) d)) (key x)) as [Hlt | Hle];
      [| exact Hle].
    exfalso. assert (Htrue : forallb (fun y => (key y <? key x)%Z) r = true).
    { apply Hback. intros y Hy. apply Z.ltb_lt.
      destruct (@latest_is_max _ key r d Hne) as [_ Hmax].
      specialize (Hmax y Hy). lia. }
    congruence.
Qed.

End LatestByKey.

(** Whatever the modification times, [get_package_file] returns, of the
    candidates that are newest, the one the glob lists last: no candidate
    listed before it is newer, every candidate listed after it is strictly
    older. *)
Theorem get_package_file_tie_break (w : World) (h : History) (package_path : option string) :
  w_glob w (dist_dir package_path) "*.whl" <> [] ->
  exists f before after,
    outcome (PackageManager.get_package_file package_path w h) = Ok (Some f) /\
    w_glob w (dist_dir package_path) "*.whl" = before ++ f :: after /\
    Forall (fun g => (w_getmtime w g <= w_getmtime w f)%Z) before /\
    Forall (fun g => (w_getmtime w g < w_getmtime w f)%Z) after.
Proof.
  intros Hne.
  destruct (@latest_position _ (w_getmtime w) _ EmptyString Hne)
    as [before [after [Heq [Hbefore Hafter]]]].
  exists (last (sorted (w_getmtime w) (w_glob w (dist_dir package_path) "*.whl")) EmptyString),
    before, after.
  split; [| split; [exact Heq | split; assumption]].
  rewrite get_package_file_outcome.
  destruct (sorted (w_getmtime w) (w_glob w (dist_dir package_path) "*.whl")) eqn:Hs;
    [| reflexivity].
  exfalso. apply Hne. apply Permutation_nil. rewrite <- Hs. apply sorted_perm.
Qed.

Lemma get_package_file_tie_break_witness :
  exists f before after,
    outcome (PackageManager.get_package_file None tied_wheels_world []) = Ok (Some f) /\
    w_glob tied_wheels_world (dist_dir None) "*.whl" = before ++ f :: after /\
    Forall (fun g => (w_getmtime tied_wheels_world g <= w_getmtime tied_wheels_world f)%Z)
           before /\
    Forall (fun g => (w_getmtime tied_wheels_world g < w_getmtime tied_wheels_world f)%Z)
           after.
Proof.
  apply (@get_package_file_tie_break tied_wheels_world [] None).
  vm_compute. discriminate.
Defined.

Example get_package_file_on_a_tie :
  outcome (PackageManager.get_package_file None tied_wheels_world []) =
  Ok (Some "dist/pkg-0.2-py3-none-any.whl").
Proof. reflexivity. Qed.

(** ** From the located wheel to the upload *)

Lemma startswith_append (p s : string) : PyStr.startswith p (p +++ s) = true.
Proof.
  induction p as [| c p' IH]; [reflexivity |].
  simpl. now rewrite Ascii.eqb_refl.
Qed.

Lemma replace_from_skip (old new p s : string) :
  PyStr.replace_from old new (p +++ s) (String.length p) = PyStr.replace_from old new s 0.
Proof.
  induction p as [| c p' IH]; simpl.
  - destruct s; reflexivity.
  - exact IH.
Qed.

(** A leading occurrence is replaced, and the scan goes on behind it. *)
Lemma replace_prefix (c : ascii) (old' new s : string) :
  PyStr.replace (String c old') new (String c old' +++ s) =
  new +++ PyStr.replace (String c old') new s.
Proof.
  unfold PyStr.replace. simpl PyStr.replace_from.
  rewrite Ascii.eqb_refl, startswith_append.
  rewrite Nat.sub_0_r. now rewrite replace_from_skip.
Qed.

(** A string that holds no occurrence is left as it is. *)
Lemma replace_without_occurrence (old new s : string) :
  occurs old s = false -> PyStr.replace old new s = s.
Proof.
  unfold PyStr.replace. induction s as [| c s' IH]; [reflexivity |].
  simpl occurs. intros Hocc. apply orb_false_iff in Hocc. destruct Hocc as [Hhere Hlater].
  simpl PyStr.replace_from. rewrite Hhere. now rewrite IH.
Qed.

Lemma prepare_package_outcome (w : World) (h : History) (package_path : option string) :
  outcome (PackageManager.prepare_package package_path w h) =
  match outcome (PackageManager.get_package_file package_path w h) with
  | Ok (Some f) => Ok (Some {| whl := "file://" +++ f |})
  | Ok None => Ok None
  | Raise e => Raise e
  end.
Proof.
  unfold PackageManager.prepare_package. rewrite bind_outcome.
  destruct (outcome (PackageManager.get_package_file package_path w h)) as [[f |] | e];
    reflexivity.
Qed.

(** The [file://] prefix that [prepare_package] puts before the located
    wheel is the one [install_package] strips again: when the path of the
    wheel holds no [file://] of its own, a controller given the library
    that [prepare_package] returned uploads [file:fuse://] followed by
    exactly the path [get_package_file] located. *)
Theorem located_wheel_is_uploaded (w w' : World) (h h' : History)
    (package_path : option string) (lib : Library) (self : t)
    (extras : option string) :
  outcome (PackageManager.prepare_package package_path w h) = Ok (Some lib) ->
  core_package (additional_libraries self) = Some lib ->
  exists f,
    outcome (PackageManager.get_package_file package_path w h) = Ok (Some f) /\
    whl lib = "file://" +++ f /\
    (occurs "file://" f = false ->
     exists rest,
       events (install_package self extras w' h') =
       Echo "Uploading package" ::
       Upload (_file_uploader self) ("file:fuse://" +++ f) :: rest).
Proof.
  intros Hprep Hcore. rewrite prepare_package_outcome in Hprep.
  destruct (outcome (PackageManager.get_package_file package_path w h)) as [[f |] | e];
    try discriminate.
  injection Hprep as <-. exists f. split; [reflexivity |]. split; [reflexivity |].
  intros Hocc. unfold install_package. rewrite Hcore. cbv beta iota zeta.
  cbn [whl].
  change (String "f" (String "i" (String "l" (String "e" (String ":" (String "/"
            (String "/" f)))))))
    with (String "f" "ile://" +++ f).
  rewrite (replace_prefix "f" "ile://" "" f).
  change ("" +++ PyStr.replace "file://" "" f) with (PyStr.replace "file://" "" f).
  rewrite (replace_without_occurrence _ "" _ Hocc).
  rewrite bind_events. unfold dbx_echo at 1. unfold events at 1. cbn [fst].
  unfold outcome at 1. cbn [snd].
  rewrite bind_events. unfold upload_and_provide_path at 1, call at 1, events at 1. cbn [fst].
  eexists. reflexivity.
Qed.

Lemma located_wheel_is_uploaded_witness :
  exists f,
    outcome (PackageManager.get_package_file None wheels_world []) = Ok (Some f) /\
    whl {| whl := "file://dist/pkg-0.9-py3-none-any.whl" |} = "file://" +++ f /\
    (occurs "file://" f = false ->
     exists rest,
       events (install_package
                 (context_controller false
                    (Some {| whl := "file://dist/pkg-0.9-py3-none-any.whl" |})
                    None None job_script) None calm_world []) =
       Echo "Uploading package" ::
       Upload (_file_uploader
                 (context_controller false
                    (Some {| whl := "file://dist/pkg-0.9-py3-none-any.whl" |})
                    None None job_script))
              ("file:fuse://" +++ f) :: rest).
Proof.
  apply (@located_wheel_is_uploaded wheels_world calm_world [] [] None
           {| whl := "file://dist/pkg-0.9-py3-none-any.whl" |}
           (context_controller false
              (Some {| whl := "file://dist/pkg-0.9-py3-none-any.whl" |})
              None None job_script) None);
    reflexivity.
Defined.

(** ** The steps of an install *)

Lemma bind_echo A (msg : string) (k : unit -> M A) w h :
  bind (dbx_echo msg) k w h =
  (Echo msg :: events (k tt w (h ++ [Echo msg])), outcome (k tt w (h ++ [Echo msg]))).
Proof.
  unfold bind, dbx_echo, events, outcome.
  destruct (k tt w (h ++ [Echo msg])); reflexivity.
Qed.

Lemma bind_call_ok A B (e : Event) (respond : World -> History -> Result A)
    (k : A -> M B) w h a :
  respond w h = Ok a ->
  bind (call e respond) k w h =
  (e :: events (k a w (h ++ [e])), outcome (k a w (h ++ [e]))).
Proof.
  intros Hok. unfold bind, call, events, outcome. rewrite Hok.
  destruct (k a w (h ++ [e])); reflexivity.
Qed.

Lemma bind_call_raise A B (e : Event) (respond : World -> History -> Result A)
    (k : A -> M B) w h x :
  respond w h = Raise x -> bind (call e respond) k w h = ([e], Raise x).
Proof. intros Hraise. unfold bind, call. now rewrite Hraise. Qed.

Lemma refresh_starts_with_probe (w : World) (h : History) :
  exists rest, events (_refresh_python_if_necessary w h) = ExecuteCommand probe_command :: rest.
Proof.
  unfold _refresh_python_if_necessary, _identify_runtime_version, client_execute_command.
  rewrite bind_events.
  destruct (w_execute_command w h probe_command) as [output | e] eqn:Hout.
  - rewrite (@bind_call_ok _ _ _ _ _ _ _ _ Hout). cbn [events fst]. eexists. reflexivity.
  - rewrite (@bind_call_raise _ _ _ _ _ _ _ _ Hout). cbn [events fst]. eexists. reflexivity.
Qed.

(** [install_package] with a core artifact present: the upload comes
    first; when it fails nothing else is sent; when it returns, the install
    command is given the path the uploader returned and the extras; when
    the install command fails no probe is sent; when it returns, the probe
    follows. *)
Theorem install_package_steps (w : World) (h : History) (self : t)
    (extras : option string) (core : Library) :
  core_package (additional_libraries self) = Some core ->
  let uri := "file:fuse://" +++ PyStr.replace "file://" "" (whl core) in
  let up := _file_uploader self in
  let done := Echo ":white_check_mark: Uploading package - done" in
  match w_upload_and_provide_path w (h ++ [Echo "Uploading package"]) up uri with
  | Raise e =>
      install_package self extras w h =
      ([Echo "Uploading package"; Upload up uri], Raise e)
  | Ok path =>
      match w_install_package w (h ++ [Echo "Uploading package"; Upload up uri; done])
              path extras with
      | Raise e =>
          install_package self extras w h =
          ([Echo "Uploading package"; Upload up uri; done; InstallPackage path extras],
           Raise e)
      | Ok _ =>
          exists rest,
            events (install_package self extras w h) =
            [Echo "Uploading package"; Upload up uri; done; InstallPackage path extras]
            ++ ExecuteCommand probe_command :: rest
      end
  end.
Proof.
  intros Hcore uri up done.
  assert (Hhist : ((h ++ [Echo "Uploading package"]) ++ [Upload up uri]) ++ [done] =
                  h ++ [Echo "Uploading package"; Upload up uri; done])
    by (rewrite <- !app_assoc; reflexivity).
  destruct (w_upload_and_provide_path w (h ++ [Echo "Uploading package"]) up uri)
    as [path | e] eqn:Hup.
  - destruct (w_install_package w (h ++ [Echo "Uploading package"; Upload up uri; done])
                path extras) as [[] | e] eqn:Hinst.
    + unfold install_package. rewrite Hcore. cbv beta iota zeta. fold uri.
      unfold upload_and_provide_path, client_install_package. fold up.
      rewrite bind_echo. cbn [events fst].
      rewrite (@bind_call_ok _ _ _ _ _ _ _ _ Hup). cbn [events fst].
      rewrite bind_echo. cbn [events fst]. fold done. rewrite Hhist.
      rewrite (@bind_call_ok _ _ _ _ _ _ _ _ Hinst). cbn [events fst].
      rewrite bind_events.
      destruct (refresh_starts_with_probe w
                  ((h ++ [Echo "Uploading package"; Upload up uri; done]) ++
                   [InstallPackage path extras])) as [rest ->].
      eexists. simpl. reflexivity.
    + unfold install_package. rewrite Hcore. cbv beta iota zeta. fold uri.
      unfold upload_and_provide_path, client_install_package. fold up.
      rewrite bind_echo, (@bind_call_ok _ _ _ _ _ _ _ _ Hup). cbn [events outcome fst snd].
      rewrite bind_echo. cbn [events outcome fst snd]. fold done. rewrite Hhist.
      rewrite (@bind_call_raise _ _ _ _ _ _ _ _ Hinst). reflexivity.
  - unfold install_package. rewrite Hcore. cbv beta iota zeta. fold uri.
    unfold upload_and_provide_path. fold up.
    rewrite bind_echo, (@bind_call_raise _ _ _ _ _ _ _ _ Hup). reflexivity.
Qed.

Lemma install_package_steps_witness :
  install_package (context_controller false (Some core_A) None None job_script)
                  (Some "dev") install_fails_world [] =
  ([Echo "Uploading package";
    Upload ContextBasedUploader "file:fuse://dist/a-0.1-py3-none-any.whl";
    Echo ":white_check_mark: Uploading package - done";
    InstallPackage "/dbfs/tmp/uploaded" (Some "dev")],
   Raise remote_failure).
Proof.
  apply (@install_package_steps install_fails_world []
           (context_controller false (Some core_A) None None job_script)
           (Some "dev") core_A).
  reflexivity.
Defined.

Lemma bind_ask A B (f : World -> A) (k : A -> M B) w h :
  bind (ask f) k w h = k (f w) w h.
Proof.
  unfold bind, ask. rewrite app_nil_r. destruct (k (f w) w h); reflexivity.
Qed.

Lemma bind_query_ok A B (f : World -> Result A) (k : A -> M B) w h a :
  f w = Ok a -> bind (query f) k w h = k a w h.
Proof.
  intros Hok. unfold bind, query. rewrite Hok, app_nil_r.
  destruct (k a w h); reflexivity.
Qed.

Lemma bind_query_raise A B (f : World -> Result A) (k : A -> M B) w h x :
  f w = Raise x -> bind (query f) k w h = ([], Raise x).
Proof. intros Hraise. unfold bind, query. now rewrite Hraise. Qed.

(** [install_requirements_file] with a manifest that exists: the manifest
    is uploaded first; when the upload fails nothing else is sent; when it
    returns, the pip command names the path the uploader returned; when
    that command fails no probe is sent; when it returns, the probe
    follows. *)
Theorem install_requirements_file_steps (w : World) (h : History) (self : t)
    (requirements_file : Path) :
  _requirements_file self = Some requirements_file ->
  w_exists w requirements_file = Ok true ->
  let notice := Echo "Installing provided requirements" in
  let up := _file_uploader self in
  let uri := "file:fuse://" +++ requirements_file in
  match w_upload_and_provide_path w (h ++ [notice]) up uri with
  | Raise e => install_requirements_file self w h = ([notice; Upload up uri], Raise e)
  | Ok path =>
      let command := "%pip install -U -r " +++ path in
      match w_execute_command w (h ++ [notice; Upload up uri]) command with
      | Raise e =>
          install_requirements_file self w h =
          ([notice; Upload up uri; ExecuteCommand command], Raise e)
      | Ok _ =>
          exists rest,
            events (install_requirements_file self w h) =
            [notice; Upload up uri; ExecuteCommand command]
            ++ ExecuteCommand probe_command :: rest
      end
  end.
Proof.
  intros Hreq Hpresent notice up uri.
  assert (Hhist : (h ++ [notice]) ++ [Upload up uri] = h ++ [notice; Upload up uri])
    by (rewrite <- app_assoc; reflexivity).
  assert (Hstart : install_requirements_file self w h =
                   bind (dbx_echo "Installing provided requirements")
                     (fun _ =>
                        localized_requirements_path <- upload_and_provide_path self uri;;
                        client_execute_command
                          ("%pip install -U -r " +++ localized_requirements_path);;
                        _refresh_python_if_necessary;;
                        dbx_echo "Provided requirements installed") w h).
  { unfold install_requirements_file. rewrite Hreq.
    rewrite (@bind_query_ok _ _ _ _ _ _ _ Hpresent). reflexivity. }
  rewrite Hstart. clear Hstart.
  unfold upload_and_provide_path, client_execute_command. fold up.
  destruct (w_upload_and_provide_path w (h ++ [notice]) up uri) as [path | e] eqn:Hup.
  - cbv zeta.
    destruct (w_execute_command w (h ++ [notice; Upload up uri])
                ("%pip install -U -r " +++ path)) as [output | e] eqn:Hcmd.
    + rewrite bind_echo. cbn [events fst]. fold notice.
      rewrite (@bind_call_ok _ _ _ _ _ _ _ _ Hup). cbn [events fst]. rewrite Hhist.
      rewrite (@bind_call_ok _ _ _ _ _ _ _ _ Hcmd). cbn [events fst].
      rewrite bind_events.
      destruct (refresh_starts_with_probe w
                  ((h ++ [notice; Upload up uri]) ++
                   [ExecuteCommand ("%pip install -U -r " +++ path)])) as [rest ->].
      eexists. simpl. reflexivity.
    + rewrite bind_echo. fold notice.
      rewrite (@bind_call_ok _ _ _ _ _ _ _ _ Hup). cbn [events outcome fst snd].
      rewrite Hhist. rewrite (@bind_call_raise _ _ _ _ _ _ _ _ Hcmd). reflexivity.
  - rewrite bind_echo. fold notice.
    rewrite (@bind_call_raise _ _ _ _ _ _ _ _ Hup). reflexivity.
Qed.

Lemma install_requirements_file_steps_witness :
  install_requirements_file
    (context_controller true None None (Some "reqs.txt") job_script)
    upload_fails_world [] =
  ([Echo "Installing provided requirements";
    Upload ContextBasedUploader "file:fuse://reqs.txt"],
   Raise remote_failure).
Proof.
  apply (@install_requirements_file_steps upload_fails_world []
           (context_controller true None None (Some "reqs.txt") job_script) "reqs.txt");
    reflexivity.
Defined.

(** ** After the dispatch call *)

Lemma after_dispatch_app (l l' : list Event) :
  Forall (fun e => is_dispatch e = false) l ->
  after_dispatch (l ++ l') = after_dispatch l'.
Proof.
  induction 1 as [| e l He _ IH]; [reflexivity |].
  simpl. now rewrite He.
Qed.

Lemma no_dispatch_in (l : list Event) :
  dispatch_calls l = [] -> Forall (fun e => is_dispatch e = false) l.
Proof.
  unfold dispatch_calls. induction l as [| e l IH]; [constructor |].
  simpl. destruct (is_dispatch e) eqn:He; [discriminate |].
  intros Hnil. constructor; [exact He | now apply IH].
Qed.

Lemma closing_after_execute_entrypoint_file (w : World) (h : History) (file : Path)
    (closing : list Event) :
  Forall (fun e => is_closing e = true) closing ->
  Forall (fun e => is_closing e = true)
    (after_dispatch
       (events (execute_entrypoint_file file w h) ++
        match outcome (execute_entrypoint_file file w h) with
        | Ok _ => closing
        | Raise _ => []
        end)).
Proof.
  intros Hclosing. unfold execute_entrypoint_file. rewrite bind_echo.
  cbn [events outcome fst snd].
  destruct (w_execute_file w (h ++ [Echo "Starting entrypoint file execution"]) file)
    as [[] | e] eqn:Hfile.
  - rewrite (@bind_call_ok _ _ _ _ _ _ _ _ Hfile). simpl. now constructor.
  - rewrite (@bind_call_raise _ _ _ _ _ _ _ _ Hfile). simpl. constructor.
Qed.

Lemma closing_after_execute_entrypoint (w : World) (h : History)
    (package_name entry_point : string) (closing : list Event) :
  Forall (fun e => is_closing e = true) closing ->
  Forall (fun e => is_closing e = true)
    (after_dispatch
       (events (execute_entrypoint package_name entry_point w h) ++
        match outcome (execute_entrypoint package_name entry_point w h) with
        | Ok _ => closing
        | Raise _ => []
        end)).
Proof.
  intros Hclosing. unfold execute_entrypoint. rewrite bind_echo.
  cbn [events outcome fst snd].
  destruct (w_execute_entry_point w (h ++ [Echo "Starting entrypoint execution"])
              package_name entry_point) as [[] | e] eqn:Hentry.
  - rewrite (@bind_call_ok _ _ _ _ _ _ _ _ Hentry). simpl. now constructor.
  - rewrite (@bind_call_raise _ _ _ _ _ _ _ _ Hentry). simpl. constructor.
Qed.

Lemma closing_after_dispatch_statement (w : World) (h : History) (self : t)
    (closing : list Event) :
  Forall (fun e => is_closing e = true) closing ->
  Forall (fun e => is_closing e = true)
    (after_dispatch
       (events (dispatch self w h) ++
        match outcome (dispatch self w h) with
        | Ok _ => closing
        | Raise _ => []
        end)).
Proof.
  intros Hclosing. unfold dispatch.
  destruct (_task self) as [file parameters | package_name entry_point parameters named];
    rewrite bind_events, bind_outcome, <- app_assoc.
  - rewrite after_dispatch_app
      by (apply no_dispatch_in, preprocess_does_not_dispatch).
    destruct (outcome (preprocess_task_parameters self (ParamList parameters) w h))
      as [[] | e]; [| constructor].
    now apply closing_after_execute_entrypoint_file.
  - set (resolution := if nonempty named
                       then preprocess_task_parameters self (ParamDict named)
                       else if nonempty parameters
                            then preprocess_task_parameters self (ParamList parameters)
                            else ret tt).
    assert (Hnone : Forall (fun e => is_dispatch e = false) (events (resolution w h))).
    { unfold resolution. destruct (nonempty named);
        [apply no_dispatch_in, preprocess_does_not_dispatch |].
      destruct (nonempty parameters);
        [apply no_dispatch_in, preprocess_does_not_dispatch | constructor]. }
    rewrite (after_dispatch_app _ Hnone).
    destruct (outcome (resolution w h)) as [[] | e]; [| constructor].
    now apply closing_after_execute_entrypoint.
Qed.

(** The dispatch call is the last thing [run] sends to the session or to
    the uploader: whatever follows the dispatch call in the trace of [run]
    is a notice or the closing of the tracked run. *)
Theorem only_closing_after_dispatch (w : World) (h : History) (self : t) :
  Forall (fun e => is_closing e = true) (after_dispatch (events (run self w h))).
Proof.
  unfold run. rewrite bind_events.
  rewrite after_dispatch_app
    by (apply no_dispatch_in, install_phases_do_not_dispatch).
  destruct (outcome (install_phases self w h)) as [[] | e]; [| constructor].
  rewrite bind_events.
  set (h1 := h ++ events (install_phases self w h)).
  assert (Hclosing : forall h2,
            Forall (fun e => is_closing e = true)
                   (events (when (truthy (_run self)) mlflow_end_run w h2))).
  { intros h2. destruct (truthy (_run self)); simpl; repeat constructor. }
  destruct (outcome (dispatch self w h1)) as [[] | e] eqn:Hout.
  - pose proof (closing_after_dispatch_statement w h1 self (Hclosing (h1 ++ events (dispatch self w h1))))
      as Hmain.
    now rewrite Hout in Hmain.
  - pose proof (@closing_after_dispatch_statement w h1 self [] (Forall_nil _)) as Hmain.
    now rewrite Hout in Hmain.
Qed.

(** ** The life of the tracked run *)

Lemma install_phases_leave_tracked_run (w : World) (self : t) :
  emits_only w (fun e => is_tracked_run_event e = false) (install_phases self).
Proof.
  unfold install_phases, requirements_phase, install_requirements_file,
    install_package, install_extra_package, upload_and_provide_path,
    client_execute_command, client_install_package.
  emits; reflexivity.
Qed.

Lemma dispatch_leaves_tracked_run (w : World) (self : t) :
  emits_only w (fun e => is_tracked_run_event e = false) (dispatch self).
Proof.
  unfold dispatch, execute_entrypoint_file, execute_entrypoint.
  emits; try reflexivity; intros; reflexivity.
Qed.

(** The trace of [run] is a body without any opening or closing of the
    tracked run, followed by at most one closing, which is there when the
    controller holds a run and [run] ends normally. *)
Lemma run_body_and_closing (w : World) (h : History) (self : t) :
  exists body closing,
    events (run self w h) = body ++ closing /\
    Forall (fun e => is_tracked_run_event e = false) body /\
    (closing = [] \/ closing = [EndRun]) /\
    (truthy (_run self) = true -> outcome (run self w h) = Ok tt -> closing = [EndRun]).
Proof.
  unfold run. rewrite bind_events, bind_outcome.
  pose proof (install_phases_leave_tracked_run w self h) as Hinstall.
  destruct (outcome (install_phases self w h)) as [[] | e].
  2:{ exists (events (install_phases self w h)), [].
      rewrite !app_nil_r. repeat split; auto. discriminate. }
  set (h1 := h ++ events (install_phases self w h)).
  rewrite bind_events, bind_outcome.
  pose proof (dispatch_leaves_tracked_run w self h1) as Hdispatch.
  destruct (outcome (dispatch self w h1)) as [[] | e].
  2:{ exists (events (install_phases self w h) ++ events (dispatch self w h1)), [].
      rewrite !app_nil_r. repeat split; auto.
      - apply Forall_app. now split.
      - discriminate. }
  exists (events (install_phases self w h) ++ events (dispatch self w h1)).
  destruct (truthy (_run self)).
  - exists [EndRun]. split; [now rewrite app_assoc |].
    split; [apply Forall_app; now split |]. split; [now right | reflexivity].
  - exists []. split; [now rewrite app_assoc |].
    split; [apply Forall_app; now split |]. split; [now left | discriminate].
Qed.

(** A controller built with the mlflow uploader and then run opens its
    tracked run once, as the first thing after the notice of the strategy,
    and closes it at most once, as the last thing it does; between the two
    no run is opened or closed; and when [run] ends normally the closing is
    there. *)
Theorem tracked_run_lifecycle (w : World) (h : History)
    (suppress : bool) (core extra : option Library) (requirements_file : option Path)
    (task : ExecuteTask) (pip_install_extras : option string) :
  let session :=
    self <- __init__ suppress core extra false requirements_file task pip_install_extras;;
    run self in
  exists body closing,
    events (session w h) =
    [Echo "Mlflow-based file uploader will be used"; StartRun] ++ body ++ closing /\
    Forall (fun e => is_tracked_run_event e = false) body /\
    (closing = [] \/ closing = [EndRun]) /\
    (outcome (session w h) = Ok tt -> closing = [EndRun]).
Proof.
  intros session. unfold session. rewrite bind_events, bind_outcome.
  unfold __init__. cbv beta iota zeta.
  rewrite bind_echo. cbn [events outcome fst snd].
  destruct (w_start_run w (h ++ [Echo "Mlflow-based file uploader will be used"]))
    as [uri | e] eqn:Hstart.
  - rewrite (@bind_call_ok _ _ _ _ _ _ _ _ Hstart).
    unfold ret at 1 2 3 4. cbn [events outcome fst snd].
    match goal with
    | |- context [run ?c w ?h2] =>
        destruct (run_body_and_closing w h2 c) as [body [closing [Hev [Hbody [Hcl Hok]]]]];
        exists body, closing; rewrite Hev
    end.
    split; [reflexivity |]. split; [exact Hbody |]. split; [exact Hcl |].
    intros Hout. apply Hok; [reflexivity | exact Hout].
  - rewrite (@bind_call_raise _ _ _ _ _ _ _ _ Hstart). cbn [events outcome fst snd].
    exists [], []. split; [reflexivity |]. split; [constructor |]. split; [now left |].
    discriminate.
Qed.

(** ** The errors of a run *)

Lemma raises_only_ret A w Q (a : A) : raises_only w Q (ret a).
Proof. intros h e He. discriminate. Qed.

Lemma raises_only_raise A w (Q : Exn -> Prop) x : Q x -> raises_only w Q (@raise A x).
Proof. intros Hx h e He. injection He as <-. now left. Qed.

Lemma raises_only_ask A w Q (f : World -> A) : raises_only w Q (ask f).
Proof. intros h e He. discriminate. Qed.

Lemma raises_only_echo w Q msg : raises_only w Q (dbx_echo msg).
Proof. intros h e He. discriminate. Qed.

Lemma raises_only_call A w (Q : Exn -> Prop) ev (respond : World -> History -> Result A) :
  (forall h e, respond w h = Raise e -> raised_by w h ev = Some e) ->
  raises_only w Q (call ev respond).
Proof.
  intros Hr h e He. right. exists [], ev. split; [reflexivity |].
  rewrite app_nil_r. exact (Hr h e He).
Qed.

Lemma raises_only_bind A B w Q (m : M A) (k : A -> M B) :
  raises_only w Q m -> (forall a, raises_only w Q (k a)) -> raises_only w Q (bind m k).
Proof.
  intros Hm Hk h e. rewrite bind_outcome, bind_events.
  destruct (outcome (m w h)) as [a | x] eqn:Hout.
  - intros He. destruct (Hk a _ e He) as [HQ | [before [last_call [Hev Hraised]]]];
      [now left | right].
    exists (events (m w h) ++ before), last_call. split.
    + rewrite Hev. now rewrite app_assoc.
    + rewrite app_assoc. exact Hraised.
  - intros He. injection He as <-. rewrite app_nil_r. exact (Hm h x Hout).
Qed.

Lemma raises_only_bind_query A B w (Q : Exn -> Prop) (f : World -> Result A)
    (k : A -> M B) :
  (forall x, f w = Raise x -> Q x) ->
  (forall a, f w = Ok a -> raises_only w Q (k a)) ->
  raises_only w Q (bind (query f) k).
Proof.
  intros Hraise Hk h e.
  destruct (f w) as [a | x] eqn:Hf.
  - rewrite (@bind_query_ok _ _ _ _ _ _ _ Hf). now apply Hk.
  - rewrite (@bind_query_raise _ _ _ _ _ _ _ Hf). intros He. injection He as <-.
    left. now apply Hraise.
Qed.

Lemma raises_only_when w Q b (m : M unit) :
  (b = true -> raises_only w Q m) -> raises_only w Q (when b m).
Proof. destruct b; intros H; [apply H; reflexivity | apply raises_only_ret]. Qed.

(** Breaks a goal [raises_only w Q m] down to one goal per place where
    [m] can raise. *)
Ltac raises :=
  repeat lazymatch goal with
    | |- raises_only _ _ (ret _) => apply raises_only_ret
    | |- raises_only _ _ (raise _) => apply raises_only_raise
    | |- raises_only _ _ (ask _) => apply raises_only_ask
    | |- raises_only _ _ (dbx_echo _) => apply raises_only_echo
    | |- raises_only _ _ (call _ _) => apply raises_only_call; intros ? ? ?
    | |- raises_only _ _ (bind (query _) _) =>
        apply raises_only_bind_query; [intros ? ? | intros ? ?]
    | |- raises_only _ _ (bind _ _) => apply raises_only_bind; [| intros ?]
    | |- raises_only _ _ (when _ _) => apply raises_only_when; intros ?
    | |- raises_only _ _ (let _ := _ in _) => cbv zeta
    | |- raises_only _ _ (if ?b then _ else _) => destruct b eqn:?
    | |- raises_only _ _ (match ?x with _ => _ end) => destruct x eqn:?
    end.

(** Closes a goal [raised_by w h call = Some e] from the hypothesis that
    shows the world's answer. *)
Ltac answered :=
  match goal with
  | H : _ = Raise ?e |- raised_by _ _ _ = Some ?e =>
      first [ discriminate H | unfold raised_by; rewrite H; reflexivity ]
  end.

(** An exception that leaves [run] has one of four origins.  It is the
    missing-manifest error, raised when a manifest path was given and
    [exists] answered no; or what [exists] raised on that path; or the
    missing-core-artifact error, raised when the core install is requested
    and there is no core artifact; or else it is what the last call of the
    trace, a call to a collaborator, raised, passed on as it came.  So the
    guards of [install_extra_package] and [install_requirements_file]
    against a missing extra artifact or a missing path, which raise after a
    notice and not after a call, never end a run. *)
Theorem run_raises_own_or_collaborator_error (w : World) (h : History) (self : t)
    (e : Exn) :
  outcome (run self w h) = Raise e ->
  own_error w self e \/ stopped_by_call w h (events (run self w h)) e.
Proof.
  revert h e. change (raises_only w (own_error w self) (run self)).
  unfold run, install_phases, requirements_phase, install_requirements_file,
    install_package, install_extra_package, dispatch, preprocess_task_parameters,
    execute_entrypoint_file, execute_entrypoint, _refresh_python_if_necessary,
    _identify_runtime_version, upload_and_provide_path, client_execute_command,
    client_install_package, adjuster_traverse, client_setup_arguments, mlflow_end_run.
  raises; try discriminate; try answered.
  - right. left. exists p. now split.
  - left. exists p. split; [assumption |]. split; [| reflexivity].
    match goal with
    | Hexists : w_exists w p = Ok ?a, Hnot : negb ?a = true |- _ =>
        apply negb_true_iff in Hnot; now rewrite Hnot in Hexists
    end.
  - right. right.
    match goal with
    | Hflag : negb _ = true, Hcore : core_package _ = None |- _ =>
        apply negb_true_iff in Hflag; now repeat split
    end.
Qed.

Lemma run_raises_own_or_collaborator_error_witness :
  own_error upload_fails_world
    (context_controller false (Some core_A) None None job_script) remote_failure \/
  stopped_by_call upload_fails_world []
    (events (run (context_controller false (Some core_A) None None job_script)
                 upload_fails_world []))
    remote_failure.
Proof.
  apply (@run_raises_own_or_collaborator_error upload_fails_world []
           (context_controller false (Some core_A) None None job_script) remote_failure).
  reflexivity.
Defined.

Example run_stopped_by_the_upload :
  stopped_by_call upload_fails_world []
    (events (run (context_controller false (Some core_A) None None job_script)
                 upload_fails_world []))
    remote_failure.
Proof.
  exists [Echo "Uploading package"],
    (Upload ContextBasedUploader "file:fuse://dist/a-0.1-py3-none-any.whl").
  split; reflexivity.
Qed.

Example run_stopped_by_the_look_at_the_manifest :
  run (context_controller true None None (Some "reqs.txt") job_script) unreadable_world [] =
  ([], Raise {| exn_class := "PermissionError";
                exn_msg := "[Errno 13] Permission denied" |}).
Proof. reflexivity. Qed.

(** ** What the probe reads *)

Lemma occurs_dot_append (a b : string) : occurs "." (a +++ String "."%char b) = true.
Proof.
  induction a as [| c a' IH]; simpl.
  - reflexivity.
  - rewrite IH. apply orb_true_r.
Qed.

Lemma split_cons (sep c : ascii) (s : string) :
  PyStr.split sep (String c s) =
  if Ascii.eqb c sep then EmptyString :: PyStr.split sep s
  else match PyStr.split sep s with
       | piece :: rest => String c piece :: rest
       | [] => [String c EmptyString]
       end.
Proof. reflexivity. Qed.

Lemma hd_split_dot (a b : string) :
  occurs "." a = false ->
  hd EmptyString (PyStr.split "."%char (a +++ String "."%char b)) = a.
Proof.
  induction a as [| c a' IH]; intros Hocc.
  - simpl String.append. rewrite split_cons. reflexivity.
  - simpl in Hocc. apply orb_false_iff in Hocc. destruct Hocc as [Hhere Hlater].
    assert (Hc : Ascii.eqb c "."%char = false).
    { destruct (Ascii.eqb c "."%char) eqn:Heq; [| reflexivity].
      apply Ascii.eqb_eq in Heq. subst c. simpl in Hhere. destruct a'; discriminate. }
    simpl String.append. rewrite split_cons, Hc.
    specialize (IH Hlater).
    destruct (PyStr.split "."%char (a' +++ String "."%char b)) as [| piece pieces] eqn:Hs.
    + exfalso. now apply (split_never_empty "."%char (a' +++ String "."%char b)).
    + simpl in IH. simpl. now rewrite IH.
Qed.

(** The probe reads the runtime version up to its first dot and nothing
    behind it: on an output [major.rest] it returns what the interpreter's
    [int] makes of [major], the number or unknown when [int] raises
    [ValueError], whatever [rest] is. *)
Theorem probe_reads_up_to_first_dot (w : World) (h : History) (major rest : string) :
  occurs "." major = false ->
  w_execute_command w h probe_command = Ok (Some (major +++ "." +++ rest)) ->
  outcome (_identify_runtime_version w h) = Ok (w_int w major).
Proof.
  intros Hocc Hout.
  destruct (identify_after_output w h Hout) as [v [notice [Hrun [_ [Hbad Hgood]]]]].
  rewrite Hrun. cbn [outcome snd]. f_equal.
  assert (Hhd : hd EmptyString (PyStr.split "."%char (major +++ "." +++ rest)) = major)
    by exact (hd_split_dot major rest Hocc).
  destruct (w_int w major) as [n |] eqn:Hint.
  - apply (Hgood (major +++ "." +++ rest) n eq_refl).
    + intros Heq.
      assert (Hdot : occurs "." "None" = true)
        by (rewrite <- Heq; exact (occurs_dot_append major rest)).
      discriminate.
    + destruct major; discriminate.
    + now rewrite Hhd.
  - apply Hbad. unfold unparseable. right. right. now rewrite Hhd.
Qed.

Lemma probe_reads_up_to_first_dot_witness :
  outcome (_identify_runtime_version calm_world []) = Ok (w_int calm_world "14").
Proof.
  apply (@probe_reads_up_to_first_dot calm_world [] "14" "3.x-scala2.12"); reflexivity.
Defined.

(** ** A run with nothing to install *)



(** ** Positional parameters of an entry-point task *)



(** ** No wheel under dist *)

Lemma sorted_nil_iff A (key : A -> Z) (l : list A) : sorted key l = [] <-> l = [].
Proof.
  split; [| intros ->; reflexivity].
  intros Hnil. apply Permutation_nil. rewrite <- Hnil. apply sorted_perm.
Qed.

(** [prepare_package] returns no library exactly when the glob under
    [dist] finds no wheel, and it then says so twice: the notice of
    [get_package_file] is followed by its own. *)
Theorem prepare_package_absent (w : World) (h : History) (package_path : option string) :
  (outcome (PackageManager.prepare_package package_path w h) = Ok None <->
   w_glob w (dist_dir package_path) "*.whl" = []) /\
  (w_glob w (dist_dir package_path) "*.whl" = [] ->
   events (PackageManager.prepare_package package_path w h) =
   [Echo "Locating package file";
    Echo "Package file was not found";
    Echo "Package file was not found. Please check the dist folder if you expect to use package-based imports"]).
Proof.
  split.
  - rewrite prepare_package_outcome, get_package_file_outcome.
    rewrite <- (sorted_nil_iff (w_getmtime w)).
    destruct (sorted (w_getmtime w) (w_glob w (dist_dir package_path) "*.whl"));
      split; intros H; try reflexivity; discriminate.
  - unfold PackageManager.prepare_package, PackageManager.get_package_file, dist_dir.
    destruct (truthy_str package_path); intros Hnil;
      unfold bind, ask, dbx_echo, ret, events; simpl; rewrite Hnil; reflexivity.
Qed.

Lemma prepare_package_absent_witness :
  events (PackageManager.prepare_package None calm_world []) =
  [Echo "Locating package file";
   Echo "Package file was not found";
   Echo "Package file was not found. Please check the dist folder if you expect to use package-based imports"].
Proof.
  apply (proj2 (@prepare_package_absent calm_world [] None)). reflexivity.
Defined.

(** ** One transfer strategy *)

Lemma run_uses_its_uploader (w : World) (self : t) :
  emits_only w (fun e => forall up, uploader_of e = Some up -> up = _file_uploader self)
             (run self).
Proof.
  unfold run, install_phases, requirements_phase, install_requirements_file,
    install_package, install_extra_package, dispatch, execute_entrypoint_file,
    execute_entrypoint, upload_and_provide_path, client_execute_command,
    client_install_package, mlflow_end_run.
  emits; try (intros up Hup; simpl in Hup; congruence);
    intros resolved h' _ up Hup; discriminate.
Qed.

(** The transfer strategy is chosen once, by [__init__], and held for the
    whole run: every upload of [run], in whichever install phase, and every
    traversal of parameters goes through the context-based uploader when
    the controller was built to upload via the context, and otherwise
    through the mlflow uploader of the artifact URI that [start_run]
    returned. *)
Theorem one_transfer_strategy (w : World) (h : History)
    (suppress : bool) (core extra : option Library) (upload_via_context : bool)
    (requirements_file : option Path) (task : ExecuteTask)
    (pip_install_extras : option string) :
  let chosen :=
    if upload_via_context then Some ContextBasedUploader
    else match w_start_run w (h ++ [Echo "Mlflow-based file uploader will be used"]) with
         | Ok artifact_uri => Some (MlflowFileUploader artifact_uri)
         | Raise _ => None
         end in
  Forall (fun e => forall up, uploader_of e = Some up -> Some up = chosen)
    (events ((self <- __init__ suppress core extra upload_via_context requirements_file
                        task pip_install_extras;;
              run self) w h)).
Proof.
  intros chosen. rewrite bind_events. unfold __init__. cbv beta iota zeta.
  destruct upload_via_context.
  - rewrite bind_echo. unfold ret. cbn [events outcome fst snd].
    constructor; [discriminate |]. simpl app.
    eapply Forall_impl; [| apply run_uses_its_uploader].
    intros e He up Hup. rewrite (He up Hup). reflexivity.
  - rewrite bind_echo. cbn [events outcome fst snd].
    constructor; [discriminate |].
    destruct (w_start_run w (h ++ [Echo "Mlflow-based file uploader will be used"]))
      as [uri | x] eqn:Hstart.
    + rewrite (@bind_call_ok _ _ _ _ _ _ _ _ Hstart). unfold ret.
      cbn [events outcome fst snd].
      constructor; [discriminate |]. simpl app.
      eapply Forall_impl; [| apply run_uses_its_uploader].
      intros e He up Hup. rewrite (He up Hup). reflexivity.
    + rewrite (@bind_call_raise _ _ _ _ _ _ _ _ Hstart). cbn [events outcome fst snd].
      simpl. constructor; [discriminate | constructor].
Qed.

(** ** The probe follows the interpreter's conversion *)

Example probe_reads_fullwidth_digits :
  _identify_runtime_version fullwidth_world [] =
  ([ExecuteCommand probe_command], Ok (Some 14%Z)).
Proof. reflexivity. Qed.

Example probe_gives_up_on_a_control_character :
  _identify_runtime_version
    (sample_world [] [] (Ok (Some (String (ascii_of_nat 28) "14.3")))
                  (Ok "/dbfs/tmp/uploaded")) [] =
  ([ExecuteCommand probe_command;
    Echo "🚨 Cannot identify the DBR version, package may not be updated"],
   Ok None).
Proof. reflexivity. Qed.

(** ** An entry-point task without parameters *)

(** For an entry-point task with no named and no positional parameter,
    [run] makes no traversal and no [setup_arguments] call, whatever the
    install phases do. *)
Theorem entry_point_task_without_parameters (w : World) (h : History) (self : t)
    (package_name entry_point : string) :
  _task self = python_wheel_task package_name entry_point [] [] ->
  Forall (fun e => is_parameter_call e = false) (events (run self w h)).
Proof.
  intros Htask. revert h.
  change (emits_only w (fun e => is_parameter_call e = false) (run self)).
  unfold run. apply emits_only_bind; [| intros []; apply emits_only_bind; [| intros []]].
  - apply emits_only_install_phases. auto.
  - unfold dispatch. rewrite Htask. simpl. unfold execute_entrypoint.
    emits; reflexivity.
  - unfold mlflow_end_run. emits. reflexivity.
Qed.

Lemma entry_point_task_without_parameters_witness :
  Forall (fun e => is_parameter_call e = false)
         (events (run (context_controller true (Some core_A) (Some extra_B)
                         (Some "reqs.txt") wheel_job_without_parameters) calm_world [])).
Proof.
  apply (@entry_point_task_without_parameters calm_world []
           (context_controller true (Some core_A) (Some extra_B)
              (Some "reqs.txt") wheel_job_without_parameters) "pkg" "main").
  reflexivity.
Defined.
